(** * The per-request dispatch pipeline of the ghttp server

    A shallow embedding of [CServeHTTP], [handleHTTPRequest], [HandleContext]
    and [middleware.reset] (net/ghttp/ghttp_server_x.go), of the inlined
    variant of [CServeHTTP] and of [cHandleErrorLog].

    Go statements that mutate the request through its pointer become state
    transformers on a [Request] record; a Go panic becomes the [Panic] result
    of a small state-and-panic monad that also accumulates the observable
    calls of the dispatcher (hook stages, serving actions, log lines,
    resource releases) as a chronological list of events. *)

From Stdlib Require Import ZArith List String Ascii Bool Lia.
Import ListNotations.
Open Scope string_scope.
Open Scope Z_scope.

(** ** Error codes and errors (packages gcode and gerror) *)

Module gcode.

(** A [gcode.Code] carries an integer code, a message and a detail. *)
Record Code : Type := mkCode {
  code_num : Z;
  code_message : string;
  code_detail : option string
}.

Definition CodeNil : Code := mkCode (-1) "" None.
Definition CodeInternalError : Code := mkCode 50 "Internal Error" None.

Definition option_string_eqb (a b : option string) : bool :=
  match a, b with
  | None, None => true
  | Some x, Some y => String.eqb x y
  | _, _ => false
  end.

(** The Go comparison [code != gcode.CodeNil] on code values. *)
Definition eqb (a b : Code) : bool :=
  Z.eqb (code_num a) (code_num b)
  && String.eqb (code_message a) (code_message b)
  && option_string_eqb (code_detail a) (code_detail b).

End gcode.

Module gerror.

(** A Go [error] value: either a plain error carrying only its text, or a
    gerror.Error with a code, a text and a captured stack, created afresh
    or wrapped around a cause. *)
Inductive GoError : Type :=
| ErrPlain (msg : string)
| ErrNew (code : gcode.Code) (text : string) (stack : string)
| ErrWrap (code : gcode.Code) (text : string) (stack : string)
          (cause : GoError).

(** Modelled from the spec: gerror.Code is not part of the sources at hand;
    it yields the code an error carries, looking through wrapped causes,
    and [CodeNil] for an error without a code. *)
Fixpoint Code (e : GoError) : gcode.Code :=
  match e with
  | ErrPlain _ => gcode.CodeNil
  | ErrNew c _ _ => c
  | ErrWrap c _ _ cause =>
      if gcode.eqb c gcode.CodeNil then Code cause else c
  end.

(** Modelled from the spec: err.Error(), the text of an error. *)
Fixpoint Error (e : GoError) : string :=
  match e with
  | ErrPlain msg => msg
  | ErrNew c text _ =>
      if String.eqb text "" then gcode.code_message c else text
  | ErrWrap c text _ cause =>
      let own := if String.eqb text "" then gcode.code_message c else text in
      if String.eqb own "" then Error cause else own ++ ": " ++ Error cause
  end.

(** Modelled from the spec: gerror.Stack, the stack captured by an error
    (empty for a plain error). *)
Definition Stack (e : GoError) : string :=
  match e with
  | ErrPlain _ => ""
  | ErrNew _ _ stack => stack
  | ErrWrap _ _ stack _ => stack
  end.

(** Modelled from the spec: gerror.WrapCodeSkip wraps an error under a
    code; [callers] stands for the stack captured at the call. *)
Definition WrapCodeSkip (callers : string) (code : gcode.Code)
           (err : GoError) (text : string) : GoError :=
  ErrWrap code text callers err.

(** Modelled from the spec: gerror.NewCodeSkipf builds a fresh coded error
    from a formatted message. *)
Definition NewCodeSkipf (callers : string) (code : gcode.Code)
           (formatted : string) : GoError :=
  ErrNew code formatted callers.

End gerror.

Import gerror.

(** A value passed to [panic]: an [error], or any other value, kept as its
    rendering under the format verb of the dispatcher. *)
Inductive Exception : Type :=
| ExcError (e : GoError)
| ExcValue (rendered : string).

(** ** The request context *)

Record staticFile : Type := mkStaticFile {
  File_Path : string;
  IsDir : bool
}.

Record HandlerItemParsed : Type := mkHandlerItem {
  item_name : string
}.

Record middleware : Type := mkMiddleware {
  served : bool;
  handlerIndex : Z;
  handlerMDIndex : Z
}.

Record Session : Type := mkSession {
  session_dirty : bool;
  session_id : string
}.

Record Request : Type := mkRequest {
  URL_Path : string;
  URL_RawPath : string;
  Body_limit : option Z;
  EnterTime : Z;
  LeaveTime : Z;
  error : option GoError;
  exited : bool;
  StaticFile : option staticFile;
  isFileRequest : bool;
  handlers : list HandlerItemParsed;
  serveHandler : option HandlerItemParsed;
  hasHookHandler : bool;
  hasServeHandler : bool;
  Middleware : middleware;
  Response_Status : Z;
  Response_buffer : string;
  Response_Header : list (string * string);
  session : Session;
  inbound_session_id : string;
  Cookie_session_id : option string;
  has_client_response : bool
}.

(** Field updates, one per assignment form used by the dispatcher. *)

Definition set_URL_Path (v : string) (r : Request) : Request :=
  mkRequest (v) (URL_RawPath r) (Body_limit r) (EnterTime r) (LeaveTime r)
    (error r) (exited r) (StaticFile r) (isFileRequest r) (handlers r)
    (serveHandler r) (hasHookHandler r) (hasServeHandler r) (Middleware r)
    (Response_Status r) (Response_buffer r) (Response_Header r) (session r)
    (inbound_session_id r) (Cookie_session_id r) (has_client_response r).

Definition set_Body_limit (v : option Z) (r : Request) : Request :=
  mkRequest (URL_Path r) (URL_RawPath r) (v) (EnterTime r) (LeaveTime r)
    (error r) (exited r) (StaticFile r) (isFileRequest r) (handlers r)
    (serveHandler r) (hasHookHandler r) (hasServeHandler r) (Middleware r)
    (Response_Status r) (Response_buffer r) (Response_Header r) (session r)
    (inbound_session_id r) (Cookie_session_id r) (has_client_response r).

Definition set_LeaveTime (v : Z) (r : Request) : Request :=
  mkRequest (URL_Path r) (URL_RawPath r) (Body_limit r) (EnterTime r) (v)
    (error r) (exited r) (StaticFile r) (isFileRequest r) (handlers r)
    (serveHandler r) (hasHookHandler r) (hasServeHandler r) (Middleware r)
    (Response_Status r) (Response_buffer r) (Response_Header r) (session r)
    (inbound_session_id r) (Cookie_session_id r) (has_client_response r).

Definition set_error (v : option GoError) (r : Request) : Request :=
  mkRequest (URL_Path r) (URL_RawPath r) (Body_limit r) (EnterTime r)
    (LeaveTime r) (v) (exited r) (StaticFile r) (isFileRequest r) (handlers
    r) (serveHandler r) (hasHookHandler r) (hasServeHandler r) (Middleware
    r) (Response_Status r) (Response_buffer r) (Response_Header r) (session
    r) (inbound_session_id r) (Cookie_session_id r) (has_client_response r).

Definition set_exited (v : bool) (r : Request) : Request :=
  mkRequest (URL_Path r) (URL_RawPath r) (Body_limit r) (EnterTime r)
    (LeaveTime r) (error r) (v) (StaticFile r) (isFileRequest r) (handlers
    r) (serveHandler r) (hasHookHandler r) (hasServeHandler r) (Middleware
    r) (Response_Status r) (Response_buffer r) (Response_Header r) (session
    r) (inbound_session_id r) (Cookie_session_id r) (has_client_response r).

Definition set_StaticFile (v : option staticFile) (r : Request) : Request :=
  mkRequest (URL_Path r) (URL_RawPath r) (Body_limit r) (EnterTime r)
    (LeaveTime r) (error r) (exited r) (v) (isFileRequest r) (handlers r)
    (serveHandler r) (hasHookHandler r) (hasServeHandler r) (Middleware r)
    (Response_Status r) (Response_buffer r) (Response_Header r) (session r)
    (inbound_session_id r) (Cookie_session_id r) (has_client_response r).

Definition set_isFileRequest (v : bool) (r : Request) : Request :=
  mkRequest (URL_Path r) (URL_RawPath r) (Body_limit r) (EnterTime r)
    (LeaveTime r) (error r) (exited r) (StaticFile r) (v) (handlers r)
    (serveHandler r) (hasHookHandler r) (hasServeHandler r) (Middleware r)
    (Response_Status r) (Response_buffer r) (Response_Header r) (session r)
    (inbound_session_id r) (Cookie_session_id r) (has_client_response r).

Definition set_route (v : list HandlerItemParsed * option HandlerItemParsed * bool * bool) (r : Request) : Request :=
  mkRequest (URL_Path r) (URL_RawPath r) (Body_limit r) (EnterTime r)
    (LeaveTime r) (error r) (exited r) (StaticFile r) (isFileRequest r) (fst
    (fst (fst v))) (snd (fst (fst v))) (snd (fst v)) (snd v) (Middleware r)
    (Response_Status r) (Response_buffer r) (Response_Header r) (session r)
    (inbound_session_id r) (Cookie_session_id r) (has_client_response r).

Definition set_Middleware (v : middleware) (r : Request) : Request :=
  mkRequest (URL_Path r) (URL_RawPath r) (Body_limit r) (EnterTime r)
    (LeaveTime r) (error r) (exited r) (StaticFile r) (isFileRequest r)
    (handlers r) (serveHandler r) (hasHookHandler r) (hasServeHandler r) (v)
    (Response_Status r) (Response_buffer r) (Response_Header r) (session r)
    (inbound_session_id r) (Cookie_session_id r) (has_client_response r).

Definition set_Response_Status (v : Z) (r : Request) : Request :=
  mkRequest (URL_Path r) (URL_RawPath r) (Body_limit r) (EnterTime r)
    (LeaveTime r) (error r) (exited r) (StaticFile r) (isFileRequest r)
    (handlers r) (serveHandler r) (hasHookHandler r) (hasServeHandler r)
    (Middleware r) (v) (Response_buffer r) (Response_Header r) (session r)
    (inbound_session_id r) (Cookie_session_id r) (has_client_response r).

Definition set_Response_buffer (v : string) (r : Request) : Request :=
  mkRequest (URL_Path r) (URL_RawPath r) (Body_limit r) (EnterTime r)
    (LeaveTime r) (error r) (exited r) (StaticFile r) (isFileRequest r)
    (handlers r) (serveHandler r) (hasHookHandler r) (hasServeHandler r)
    (Middleware r) (Response_Status r) (v) (Response_Header r) (session r)
    (inbound_session_id r) (Cookie_session_id r) (has_client_response r).

Definition set_Cookie_session_id (v : option string) (r : Request) : Request :=
  mkRequest (URL_Path r) (URL_RawPath r) (Body_limit r) (EnterTime r)
    (LeaveTime r) (error r) (exited r) (StaticFile r) (isFileRequest r)
    (handlers r) (serveHandler r) (hasHookHandler r) (hasServeHandler r)
    (Middleware r) (Response_Status r) (Response_buffer r) (Response_Header
    r) (session r) (inbound_session_id r) (v) (has_client_response r).

(** ** Server configuration *)

Record ServerConfig : Type := mkConfig {
  ClientMaxBodySize : Z;
  Rewrites : list (string * string);
  FileServerEnabled : bool;
  SessionCookieOutput : bool;
  ErrorStack : bool;
  ErrorLogEnabled : bool
}.

(** Exact-key lookup in the rewrite table, [s.config.Rewrites[path]]. *)
Fixpoint lookup_rewrite (tbl : list (string * string)) (path : string)
  : option string :=
  match tbl with
  | [] => None
  | (k, v) :: rest => if String.eqb k path then Some v else lookup_rewrite rest path
  end.

(** ** Outcomes of handler code, events, and the dispatcher monad *)

(** What a call into handler code leaves behind: it returns, or it panics;
    in both cases the request it mutated through the pointer is kept. *)
Inductive Outcome : Type :=
| Returned (r : Request)
| Panicked (x : Exception) (r : Request).

Definition HandlerFunc : Type := Request -> Outcome.

Inductive HookName : Type :=
| HookBeforeServe
| HookAfterServe
| HookBeforeOutput
| HookAfterOutput.

Inductive LogLevel : Type := LevelError | LevelPrint.

(** The fields of an error-log line that depend on the error and on the
    response; the request metadata printed between them (method, scheme, host,
    URL, protocol, client address, referer, user agent) is left out. *)
Record LogLine : Type := mkLogLine {
  log_status : Z;
  log_latency_ms : Z;
  log_code : Z;
  log_message : string;
  log_detail : string;
  log_tail : string
}.

(** The calls of the dispatcher that the properties below speak about. An
    [EvHook h b] is a call of [callHookHandler] for stage [h], made while the
    exited flag of the request read [b]. A trace lists the calls that one
    activation of a dispatcher function makes itself, statement by statement;
    what handler code does while it runs, a further HandleContext included,
    shows in the request it hands back and is not part of the trace of the
    activation that called it. *)
Inductive Event : Type :=
| EvHook (h : HookName) (exitedAtCall : bool)
| EvServeFile (f : option staticFile)
| EvMiddlewareNext
| EvStatusHandler (f : HandlerFunc)
| EvSetSessionId (id : string)
| EvCookieFlush
| EvResponseFlush (status : Z) (body : string)
| EvErrorLog (level : LogLevel) (line : LogLine)
| EvAccessLog (status : Z)
| EvSessionClose
| EvBodyClose
| EvResponseBodyClose.

Inductive Res (A : Type) : Type :=
| Ok (a : A) (r : Request) (tr : list Event)
| Panic (x : Exception) (r : Request) (tr : list Event).

Arguments Ok {A} a r tr.
Arguments Panic {A} x r tr.

Definition M (A : Type) : Type := Request -> Res A.

Definition ret {A} (a : A) : M A := fun r => Ok a r [].

Definition bind {A B} (m : M A) (k : A -> M B) : M B :=
  fun r =>
    match m r with
    | Ok a r1 t1 =>
        match k a r1 with
        | Ok b r2 t2 => Ok b r2 (t1 ++ t2)
        | Panic x r2 t2 => Panic x r2 (t1 ++ t2)
        end
    | Panic x r1 t1 => Panic x r1 t1
    end.

Notation "x <- m ;; k" := (bind m (fun x => k))
  (at level 61, m at next level, right associativity).
Notation "m ;; k" := (bind m (fun _ => k))
  (at level 61, right associativity).

Definition gets {A} (f : Request -> A) : M A := fun r => Ok (f r) r [].
Definition modify (f : Request -> Request) : M unit := fun r => Ok tt (f r) [].
Definition emit (e : Event) : M unit := fun r => Ok tt r [e].

(** A call into handler code from the dispatcher. The caller sees the
    request the handler leaves and whether it panicked; the call adds nothing
    to the caller's own trace. *)
Definition call (h : HandlerFunc) : M unit :=
  fun r =>
    match h r with
    | Returned r' => Ok tt r' []
    | Panicked x r' => Panic x r' []
    end.

Definition when (b : bool) (m : M unit) : M unit := if b then m else ret tt.

Definition res_request {A} (o : Res A) : Request :=
  match o with Ok _ r _ => r | Panic _ r _ => r end.

Definition res_trace {A} (o : Res A) : list Event :=
  match o with Ok _ _ tr => tr | Panic _ _ tr => tr end.

(** ** Request and response accessors *)

Definition IsExited (r : Request) : bool := exited r.
Definition GetError (r : Request) : option GoError := error r.
Definition BufferLength (r : Request) : Z := Z.of_nat (String.length (Response_buffer r)).

Definition StatusOK : Z := 200.
Definition StatusNotFound : Z := 404.
Definition StatusInternalServerError : Z := 500.

(** Modelled from the spec: Response.WriteHeader records the status of the
    response. *)
Definition WriteHeader (status : Z) : M unit := modify (set_Response_Status status).

(** Modelled from the spec: Response.Write appends to the response buffer. *)
Definition Write (content : string) : M unit :=
  modify (fun r => set_Response_buffer (Response_buffer r ++ content) r).

(** middleware.reset (ghttp_server_x.go). *)
Definition reset (m : middleware) : middleware :=
  let m := mkMiddleware false (handlerIndex m) (handlerMDIndex m) in
  let m := mkMiddleware (served m) 0 (handlerMDIndex m) in
  mkMiddleware (served m) (handlerIndex m) 0.

Definition set_served (b : bool) (m : middleware) : middleware :=
  mkMiddleware b (handlerIndex m) (handlerMDIndex m).
Definition set_handlerIndex (i : Z) (m : middleware) : middleware :=
  mkMiddleware (served m) i (handlerMDIndex m).
Definition set_handlerMDIndex (j : Z) (m : middleware) : middleware :=
  mkMiddleware (served m) (handlerIndex m) j.

Definition is_some {A} (o : option A) : bool :=
  match o with Some _ => true | None => false end.

(** [request.StaticFile != nil && request.StaticFile.IsDir]. *)
Definition static_is_dir (r : Request) : bool :=
  match StaticFile r with
  | Some f => IsDir f
  | None => false
  end.

Definition newline : string := String (ascii_of_nat 10) EmptyString.

(** [gstr.Replace(s, "\n", " ")]. *)
Fixpoint newlines_to_spaces (s : string) : string :=
  match s with
  | EmptyString => EmptyString
  | String c rest =>
      String (if Ascii.eqb c (ascii_of_nat 10) then " "%char else c)
             (newlines_to_spaces rest)
  end.

(** ** The dispatcher *)

(** The server: its configuration and the collaborators the dispatcher
    calls, whose code lies outside the files at hand. Handler code (hooks, the
    middleware chain, file serving, status handlers) is arbitrary: it may
    mutate the request in any way, and may panic. The last three fields stand
    for the process environment: the text of a status, the clock read by the
    deferred function, and the stack captured when an error is built. *)
Record Server : Type := mkServer {
  config : ServerConfig;
  searchStaticFile : string -> option staticFile;
  getHandlersWithCache :
    Request -> list HandlerItemParsed * option HandlerItemParsed * bool * bool;
  callHookHandler : HookName -> HandlerFunc;
  serveFile : option staticFile -> HandlerFunc;
  Middleware_Next : HandlerFunc;
  getStatusHandler : Z -> Request -> list HandlerFunc;
  niceCallFunc : HandlerFunc -> HandlerFunc;
  StatusText : Z -> string;
  TimestampMilli : Z;
  callers : string
}.

Section Dispatcher.

Variable s : Server.

(** Modelled from the spec: Response.WriteStatus writes the status, then
    the given content or, without content, the text of the status. *)
Definition WriteStatus (status : Z) : M unit :=
  WriteHeader status ;; Write (StatusText s status).

(** A hook stage: [s.callHookHandler(hook, request)]. *)
Definition callHook (h : HookName) : M unit :=
  ex <- gets IsExited ;;
  emit (EvHook h ex) ;;
  call (callHookHandler s h).

(** [s.serveFile(request, request.StaticFile)]. *)
Definition callServeFile : M unit :=
  sf <- gets StaticFile ;;
  emit (EvServeFile sf) ;;
  call (serveFile s sf).

(** handleHTTPRequest, lines 161-174: static lookup, handler lookup, and the
    choice between static and dynamic service. *)
Definition searchService : M unit :=
  when (FileServerEnabled (config s))
    (modify (fun r => set_StaticFile (searchStaticFile s (URL_Path r)) r) ;;
     sf <- gets StaticFile ;;
     when (is_some sf) (modify (set_isFileRequest true))) ;;
  modify (fun r => set_route (getHandlersWithCache s r) r) ;;
  dir <- gets static_is_dir ;;
  hasServe <- gets hasServeHandler ;;
  when (dir && hasServe) (modify (set_isFileRequest false)).

(** handleHTTPRequest, lines 180-201: core serving handling. *)
Definition coreServe : M unit :=
  ex <- gets IsExited ;;
  when (negb ex)
    (fileRequest <- gets isFileRequest ;;
     if fileRequest : bool then
       callServeFile
     else
       hs <- gets handlers ;;
       if (Z.of_nat (List.length hs) >? 0) then
         emit EvMiddlewareNext ;; call (Middleware_Next s)
       else
         dir <- gets static_is_dir ;;
         if dir : bool then
           callServeFile
         else
           r <- gets (fun r => r) ;;
           when ((Z.of_nat (List.length (Response_Header r)) =? 0)
                 && (Response_Status r =? 0)
                 && (BufferLength r =? 0))
             (WriteHeader StatusNotFound)).

Definition handleHTTPRequest : M unit :=
  searchService ;;
  (* HOOK - BeforeServe *)
  callHook HookBeforeServe ;;
  coreServe ;;
  (* HOOK - AfterServe *)
  ex <- gets IsExited ;;
  when (negb ex) (callHook HookAfterServe) ;;
  (* HOOK - BeforeOutput *)
  ex <- gets IsExited ;;
  when (negb ex) (callHook HookBeforeOutput).

(** HandleContext re-enters a context that has been rewritten. *)
Definition HandleContext : M unit :=
  oldHandlerIndex <- gets (fun r => handlerIndex (Middleware r)) ;;
  oldHandlerMDIndx <- gets (fun r => handlerMDIndex (Middleware r)) ;;
  modify (fun r => set_Middleware (reset (Middleware r)) r) ;;
  handleHTTPRequest ;;
  modify (fun r => set_Middleware (set_handlerIndex oldHandlerIndex (Middleware r)) r) ;;
  modify (fun r => set_Middleware (set_handlerMDIndex oldHandlerMDIndx (Middleware r)) r).

(** CServeHTTP, lines 108-120: HTTP status checking. *)
Definition statusCheck : M unit :=
  st <- gets Response_Status ;;
  when (st =? 0)
    (r <- gets (fun r => r) ;;
     if is_some (StaticFile r) || served (Middleware r)
        || (Z.of_nat (String.length (Response_buffer r)) >? 0) then
       WriteHeader StatusOK
     else
       match GetError r with
       | Some err =>
           len <- gets BufferLength ;;
           when (len =? 0) (Write (Error err)) ;;
           WriteHeader StatusInternalServerError
       | None => WriteHeader StatusNotFound
       end).

(** CServeHTTP, lines 124-132: the loop over the status handlers. *)
Fixpoint statusHandlerLoop (statusFuncArray : list HandlerFunc) : M unit :=
  match statusFuncArray with
  | [] => ret tt
  | f :: rest =>
      emit (EvStatusHandler f) ;;
      call (niceCallFunc s f) ;;
      ex <- gets IsExited ;;
      if ex : bool then ret tt else statusHandlerLoop rest
  end.

(** CServeHTTP, lines 121-133: HTTP status handler. *)
Definition statusHandler : M unit :=
  st <- gets Response_Status ;;
  when (negb (st =? StatusOK))
    (statusFuncArray <- gets (fun r => (getStatusHandler s) (Response_Status r) r) ;;
     statusHandlerLoop statusFuncArray).

(** Modelled from the spec: the session accessors. [IsDirty] reads the
    dirty mark, [MustId] the current id of the session, [GetSessionId] the
    id the request came in with, and [Cookie.SetSessionId] puts an id into
    the outbound cookie. *)
Definition Session_IsDirty (r : Request) : bool := session_dirty (session r).
Definition Session_MustId (r : Request) : string := session_id (session r).
Definition GetSessionId (r : Request) : string := inbound_session_id r.
Definition Cookie_SetSessionId (id : string) : M unit :=
  emit (EvSetSessionId id) ;; modify (set_Cookie_session_id (Some id)).

(** CServeHTTP, lines 135-142: session id output to the cookie. *)
Definition sessionCookie : M unit :=
  r <- gets (fun r => r) ;;
  when (SessionCookieOutput (config s)
        && Session_IsDirty r
        && negb (String.eqb (Session_MustId r) (GetSessionId r)))
    (id <- gets Session_MustId ;; Cookie_SetSessionId id).

(** Modelled from the spec: flushing hands the cookies, then the status and
    the buffered body, to the client and empties the buffer. *)
Definition Cookie_Flush : M unit := emit EvCookieFlush.
Definition Response_Flush : M unit :=
  r <- gets (fun r => r) ;;
  emit (EvResponseFlush (Response_Status r) (Response_buffer r)) ;;
  modify (set_Response_buffer "").

(** CServeHTTP, lines 108-150: everything after handleHTTPRequest. *)
Definition output : M unit :=
  statusCheck ;;
  statusHandler ;;
  sessionCookie ;;
  Cookie_Flush ;;
  Response_Flush ;;
  (* HOOK - AfterOutput *)
  ex <- gets IsExited ;;
  when (negb ex) (callHook HookAfterOutput).

(** *** Error and access logging *)

(** [s.IsErrorLogEnabled()]. *)
Definition IsErrorLogEnabled : bool := ErrorLogEnabled (config s).

(** The content composed by cHandleErrorLog. *)
Definition errorLogContent (err : GoError) (r : Request) : LogLine :=
  let code := gerror.Code err in
  let codeDetail := gcode.code_detail code in
  let codeDetailStr :=
    match codeDetail with
    | Some d => newlines_to_spaces d
    | None => ""
    end in
  let tail :=
    if ErrorStack (config s) then
      if negb (String.eqb (gerror.Stack err) "")
      then newline ++ "Stack:" ++ newline ++ gerror.Stack err
      else ", " ++ gerror.Error err
    else ", " ++ gerror.Error err in
  mkLogLine (Response_Status r) (LeaveTime r - EnterTime r)
            (gcode.code_num code) (gcode.code_message code) codeDetailStr tail.

(** cHandleErrorLog handles the error logging for the server, at level
    Error. *)
Definition cHandleErrorLog (err : GoError) : M unit :=
  if negb IsErrorLogEnabled then ret tt
  else r <- gets (fun r => r) ;; emit (EvErrorLog LevelError (errorLogContent err r)).

(** Modelled from the spec: handleErrorLog, the stock error logger that
    cHandleErrorLog copies; it composes the same line and differs only in
    logging at level Print. *)
Definition handleErrorLog (err : GoError) : M unit :=
  if negb IsErrorLogEnabled then ret tt
  else r <- gets (fun r => r) ;; emit (EvErrorLog LevelPrint (errorLogContent err r)).

(** Modelled from the spec: access logging, session close and the release
    of the bodies are recorded as events; a failure of a close is logged
    and changes nothing. *)
Definition handleAccessLog : M unit :=
  st <- gets Response_Status ;; emit (EvAccessLog st).
Definition Session_Close : M unit := emit EvSessionClose.
Definition Body_Close : M unit := emit EvBodyClose.
Definition Response_Body_Close : M unit := emit EvResponseBodyClose.

(** *** CServeHTTP *)

(** The error log handling of the deferred function when the request
    carries no error: [exception] is what [recover()] returns. The result
    tells whether a panic was recovered. *)
Definition recoverPanic (errorLog : GoError -> M unit)
           (exception : option Exception) : M bool :=
  match exception with
  | Some exception =>
      WriteStatus StatusInternalServerError ;;
      match exception with
      | ExcError v =>
          let code := gerror.Code v in
          if negb (gcode.eqb code gcode.CodeNil) then
            errorLog v
          else
            errorLog (gerror.WrapCodeSkip (callers s) gcode.CodeInternalError v "")
      | ExcValue rendered =>
          errorLog (gerror.NewCodeSkipf (callers s) gcode.CodeInternalError rendered)
      end ;;
      ret true
  | None => ret false
  end.

(** The deferred function of CServeHTTP, lines 65-104. [panicking] is the
    panic in flight when the function body is left, if any. *)
Definition deferred (errorLog : GoError -> M unit)
           (panicking : option Exception) : M bool :=
  modify (set_LeaveTime (TimestampMilli s)) ;;
  (* error log handling. *)
  err <- gets error ;;
  recovered <- match err with
               | Some e => errorLog e ;; ret false
               | None => recoverPanic errorLog panicking
               end ;;
  (* access log handling. *)
  handleAccessLog ;;
  Session_Close ;;
  Body_Close ;;
  hasResp <- gets has_client_response ;;
  when hasResp Response_Body_Close ;;
  ret recovered.

(** Running a function body under its deferred function: the deferred
    function runs on the request as the body left it, whether the body
    returned or panicked; a panic that was not recovered goes on to the
    caller. *)
Definition withDeferred (errorLog : GoError -> M unit) (body : M unit)
  : M unit :=
  fun r =>
    match body r with
    | Ok _ r1 t1 =>
        match deferred errorLog None r1 with
        | Ok _ r2 t2 => Ok tt r2 (t1 ++ t2)
        | Panic x r2 t2 => Panic x r2 (t1 ++ t2)
        end
    | Panic x r1 t1 =>
        match deferred errorLog (Some x) r1 with
        | Ok true r2 t2 => Ok tt r2 (t1 ++ t2)
        | Ok false r2 t2 => Panic x r2 (t1 ++ t2)
        | Panic x' r2 t2 => Panic x' r2 (t1 ++ t2)
        end
    end.

(** CServeHTTP, lines 39-60: body size limit and path rewriting, applied
    to the request that [newRequest] wraps. *)
Definition prepare : M unit :=
  when (ClientMaxBodySize (config s) >? 0)
    (modify (set_Body_limit (Some (ClientMaxBodySize (config s))))) ;;
  raw <- gets URL_RawPath ;;
  when (negb (String.eqb raw "")) (modify (set_URL_Path raw)) ;;
  when (Z.of_nat (List.length (Rewrites (config s))) >? 0)
    (path <- gets URL_Path ;;
     match lookup_rewrite (Rewrites (config s)) path with
     | Some rewrite => modify (set_URL_Path rewrite)
     | None => ret tt
     end).

(** CServeHTTP of ghttp_server_x.go. *)
Definition CServeHTTP : M unit :=
  prepare ;;
  withDeferred handleErrorLog (handleHTTPRequest ;; output).

(** CServeHTTP of the variant that inlines handleHTTPRequest and logs
    errors through cHandleErrorLog. *)
Definition CServeHTTP_inlined : M unit :=
  prepare ;;
  withDeferred cHandleErrorLog
    (searchService ;;
     callHook HookBeforeServe ;;
     coreServe ;;
     ex <- gets IsExited ;;
     when (negb ex) (callHook HookAfterServe) ;;
     ex <- gets IsExited ;;
     when (negb ex) (callHook HookBeforeOutput) ;;
     statusCheck ;;
     statusHandler ;;
     sessionCookie ;;
     Cookie_Flush ;;
     Response_Flush ;;
     ex <- gets IsExited ;;
     when (negb ex) (callHook HookAfterOutput)).

End Dispatcher.

(** ** Sample servers and requests *)

(** The request [newRequest] builds for a path: nothing served, nothing
    written, no error, not exited. *)
Definition fresh_request (path : string) : Request :=
  mkRequest path "" None 1000 0 None false None false [] None false false
            (mkMiddleware false 0 0) 0 "" [] (mkSession false "") "" None false.

Definition sample_config : ServerConfig :=
  mkConfig 0 [("/old", "/api/x")] true true false true.

Definition sample_search (path : string) : option staticFile :=
  if String.eqb path "/static/exists.html"
  then Some (mkStaticFile "/www/static/exists.html" false)
  else if String.eqb path "/static/"
  then Some (mkStaticFile "/www/static" true)
  else None.

Definition sample_route (r : Request)
  : list HandlerItemParsed * option HandlerItemParsed * bool * bool :=
  if String.eqb (URL_Path r) "/api/x" || String.eqb (URL_Path r) "/static/"
  then ([mkHandlerItem "x"], Some (mkHandlerItem "x"), false, true)
  else ([], None, false, false).

(** A serve handler that writes a body and moves the cursor on. *)
Definition sample_next : HandlerFunc :=
  fun r =>
    Returned (set_Middleware (mkMiddleware true 1 3)
                (set_Response_buffer (Response_buffer r ++ "hello") r)).

(** File serving that streams to the connection, past the response buffer. *)
Definition sample_serveFile (f : option staticFile) : HandlerFunc :=
  fun r => Returned r.

Definition quiet_hook (h : HookName) : HandlerFunc := fun r => Returned r.

(** A status handler that supplies a body. *)
Definition sample_status_page : HandlerFunc :=
  fun r => Returned (set_Response_buffer (Response_buffer r ++ "sorry") r).

(** A status handler that supplies a body and ends the request. *)
Definition sample_status_exit : HandlerFunc :=
  fun r => Returned (set_exited true (set_Response_buffer (Response_buffer r ++ "bye") r)).

Definition sample_status_table (status : Z) (r : Request) : list HandlerFunc :=
  if status =? 404 then [sample_status_page; sample_status_exit; sample_status_page]
  else [].

(** A wrapper that stops a panic of the wrapped handler. *)
Definition sample_niceCallFunc (f : HandlerFunc) : HandlerFunc :=
  fun r =>
    match f r with
    | Returned r' => Returned r'
    | Panicked _ r' => Returned r'
    end.

Definition sample_StatusText (status : Z) : string :=
  if status =? 500 then "Internal Server Error"
  else if status =? 404 then "Not Found"
  else "".

Definition sample_server : Server :=
  mkServer sample_config sample_search sample_route quiet_hook
           sample_serveFile sample_next sample_status_table
           sample_niceCallFunc sample_StatusText 1250 "stack".

(** ** Vocabulary of the properties and further samples *)

Definition request_in_chain : Request :=
  set_Middleware (mkMiddleware true 2 5) (fresh_request "/api/x").

Definition request_with_body : Request :=
  set_Response_buffer "hello" (fresh_request "/api/x").

(** The statement of C2 as it is worded: nothing written, not served, no
    error, no status set, hence 404. *)
Definition unserved_gives_404 (r : Request) : Prop :=
  Response_Status r = 0 ->
  Response_buffer r = "" ->
  served (Middleware r) = false ->
  error r = None ->
  Response_Status (res_request (statusCheck r)) = 404.

(** A request that matched a static file which the file server streamed to
    the connection: nothing in the buffer, no status, no error. *)
Definition request_static_streamed : Request :=
  set_isFileRequest true
    (set_StaticFile (Some (mkStaticFile "/www/static/exists.html" false))
       (fresh_request "/static/exists.html")).

Definition request_with_error : Request :=
  set_error (Some (ErrPlain "boom")) (fresh_request "/api/y").

Definition sets_session_cookie (tr : list Event) : Prop :=
  exists id, In (EvSetSessionId id) tr.

(** The three conditions of the session step, on the request as the step
    finds it. *)
Definition session_id_is_new (s : Server) (r : Request) : Prop :=
  SessionCookieOutput (config s) = true /\
  Session_IsDirty r = true /\
  Session_MustId r <> GetSessionId r.

(** All eight combinations of cookie output, dirty mark and changed id. *)
Definition session_case (out dirty changed : bool) : list Event :=
  let s := mkServer (mkConfig 0 [] true out false true) sample_search
             sample_route quiet_hook sample_serveFile sample_next
             sample_status_table sample_niceCallFunc sample_StatusText 0 "" in
  let r := mkRequest "/" "" None 0 0 None false None false [] None false false
             (mkMiddleware false 0 0) 200 "" []
             (mkSession dirty (if changed then "new" else "old")) "old" None
             false in
  res_trace (sessionCookie s r).

(** The error-log line a logger at level [lvl] emits for [e] on request
    [r], if error logging is enabled. *)
Definition error_log_events (s : Server) (lvl : LogLevel) (e : GoError)
           (r : Request) : list Event :=
  if IsErrorLogEnabled s then [EvErrorLog lvl (errorLogContent s e r)] else [].

(** The access log and the releases that end the deferred function. *)
Definition release_events (r : Request) : list Event :=
  [EvAccessLog (Response_Status r); EvSessionClose; EvBodyClose]
  ++ (if has_client_response r then [EvResponseBodyClose] else []).

(** The error the deferred function hands to the error logger for a
    recovered panic value, as C6 words it. *)
Definition logged_as (s : Server) (x : Exception) (e : GoError) : Prop :=
  match x with
  | ExcError v =>
      if gcode.eqb (gerror.Code v) gcode.CodeNil
      then e = gerror.WrapCodeSkip (callers s) gcode.CodeInternalError v "" /\
           gerror.Code e = gcode.CodeInternalError
      else e = v /\ gerror.Code e = gerror.Code v
  | ExcValue rendered =>
      e = gerror.NewCodeSkipf (callers s) gcode.CodeInternalError rendered /\
      gerror.Code e = gcode.CodeInternalError
  end.

(** A server whose serve handler panics with a plain error. *)
Definition panicking_server : Server :=
  mkServer sample_config sample_search sample_route quiet_hook
           sample_serveFile (fun r => Panicked (ExcError (ErrPlain "boom")) r)
           sample_status_table sample_niceCallFunc sample_StatusText 1250 "stack".

Definition invoked_status_handlers (tr : list Event) : list HandlerFunc :=
  flat_map (fun e => match e with EvStatusHandler f => [f] | _ => [] end) tr.

Definition outcome_of (o : Res unit) : Outcome :=
  match o with
  | Ok _ r _ => Returned r
  | Panic x r _ => Panicked x r
  end.

(** The run of the status handlers as C7 words it: the handlers registered
    for the status are called in their order, each through the wrapper; the
    run is over after the last one, or as soon as a call returns with the
    request exited, or when a panic gets past the wrapper. [StatusRun s fs r
    called o] reads: started on [r] with the handlers [fs], the run calls
    exactly [called] and ends as [o]. *)
Inductive StatusRun (s : Server)
  : list HandlerFunc -> Request -> list HandlerFunc -> Outcome -> Prop :=
| run_done : forall r,
    StatusRun s [] r [] (Returned r)
| run_exited : forall f rest r r',
    niceCallFunc s f r = Returned r' ->
    IsExited r' = true ->
    StatusRun s (f :: rest) r [f] (Returned r')
| run_panicked : forall f rest r x r',
    niceCallFunc s f r = Panicked x r' ->
    StatusRun s (f :: rest) r [f] (Panicked x r')
| run_next : forall f rest r r' called o,
    niceCallFunc s f r = Returned r' ->
    IsExited r' = false ->
    StatusRun s rest r' called o ->
    StatusRun s (f :: rest) r (f :: called) o.

(** The claim of C1 as it is worded: no hook stage is called on a request
    that is marked exited. *)
Definition hooks_gated (tr : list Event) : Prop :=
  forall h, ~ In (EvHook h true) tr.

(** A serve handler that answers 404 and ends the request (WriteStatus
    followed by ExitAll, whose panic the chain absorbs). *)
Definition exiting_next : HandlerFunc :=
  fun r => Returned (set_exited true (set_Response_Status 404 r)).

Definition exiting_server : Server :=
  mkServer sample_config sample_search sample_route quiet_hook
           sample_serveFile exiting_next
           (fun status _ => if status =? 404 then [sample_status_page] else [])
           sample_niceCallFunc sample_StatusText 1250 "stack".

(** The request as the status handler of [exiting_server] receives it. *)
Definition request_after_exit : Request :=
  res_request ((handleHTTPRequest exiting_server ;; statusCheck)
                 (fresh_request "/api/x")).

(** A request answered 200 whose session was given a new id. *)
Definition request_new_session : Request :=
  mkRequest "/api/x" "" None 1000 0 None false None false [] None false false
            (mkMiddleware true 1 0) 200 "hello" [] (mkSession true "new") "old"
            None false.

(** ** Vocabulary of the further properties *)

(** The error logger of each form of CServeHTTP, by the level it logs at:
    handleErrorLog for ghttp_server_x.go, cHandleErrorLog for the inlined
    form. *)
Definition errorLogger (s : Server) (lvl : LogLevel) : GoError -> M unit :=
  match lvl with
  | LevelPrint => handleErrorLog s
  | LevelError => cHandleErrorLog s
  end.

(** The panic in flight when a function body is left. *)
Definition panic_of {A} (o : Res A) : option Exception :=
  match o with
  | Ok _ _ _ => None
  | Panic x _ _ => Some x
  end.

(** The hook stages a trace calls, in the order of the calls. *)
Definition hook_names (tr : list Event) : list HookName :=
  flat_map (fun e => match e with EvHook h _ => [h] | _ => [] end) tr.

(** The place of a hook stage in the pipeline. *)
Definition hook_rank (h : HookName) : Z :=
  match h with
  | HookBeforeServe => 1
  | HookAfterServe => 2
  | HookBeforeOutput => 3
  | HookAfterOutput => 4
  end.

Definition is_error_log (e : Event) : bool :=
  match e with EvErrorLog _ _ => true | _ => false end.

Definition is_session_close (e : Event) : bool :=
  match e with EvSessionClose => true | _ => false end.

Definition is_body_close (e : Event) : bool :=
  match e with EvBodyClose => true | _ => false end.

Definition is_access_log (e : Event) : bool :=
  match e with EvAccessLog _ => true | _ => false end.

Definition count_events (p : Event -> bool) (tr : list Event) : nat :=
  List.length (filter p tr).

(** A trace read without the level of its error-log lines. *)
Definition at_level_error (e : Event) : Event :=
  match e with
  | EvErrorLog _ line => EvErrorLog LevelError line
  | _ => e
  end.

(** The server with another static file search. *)
Definition with_searchStaticFile (search : string -> option staticFile)
           (s : Server) : Server :=
  mkServer (config s) search (getHandlersWithCache s) (callHookHandler s)
           (serveFile s) (Middleware_Next s) (getStatusHandler s)
           (niceCallFunc s) (StatusText s) (TimestampMilli s) (callers s).

Fixpoint has_newline (s : string) : bool :=
  match s with
  | EmptyString => false
  | String c rest => Ascii.eqb c (ascii_of_nat 10) || has_newline rest
  end.

(** The path the dispatch works on: the raw path when there is one, put
    through the rewrite table once. *)
Definition dispatch_path (s : Server) (r : Request) : string :=
  let p := if String.eqb (URL_RawPath r) "" then URL_Path r else URL_RawPath r in
  match lookup_rewrite (Rewrites (config s)) p with
  | Some rewrite => rewrite
  | None => p
  end.

(** A rewrite table that sends /a to /b and /b to /c. *)
Definition chained_rewrites : Server :=
  mkServer (mkConfig 64 [("/a", "/b"); ("/b", "/c")] false false true false)
           sample_search sample_route quiet_hook sample_serveFile sample_next
           sample_status_table sample_niceCallFunc sample_StatusText 0 "".

(** The error the deferred function builds from a recovered panic value. *)
Definition panic_error (s : Server) (x : Exception) : GoError :=
  match x with
  | ExcError v =>
      if negb (gcode.eqb (gerror.Code v) gcode.CodeNil) then v
      else gerror.WrapCodeSkip (callers s) gcode.CodeInternalError v ""
  | ExcValue rendered =>
      gerror.NewCodeSkipf (callers s) gcode.CodeInternalError rendered
  end.

(** The events of the function body of CServeHTTP, as opposed to those of
    its deferred function. *)
Definition body_event (e : Event) : bool :=
  match e with
  | EvHook _ _ | EvServeFile _ | EvMiddlewareNext | EvStatusHandler _
  | EvSetSessionId _ | EvCookieFlush | EvResponseFlush _ _ => true
  | _ => false
  end.

(** A server whose serve handler records an error on the request and then
    panics with a value that is not an error. *)
Definition erring_server : Server :=
  mkServer sample_config sample_search sample_route quiet_hook
           sample_serveFile
           (fun r => Panicked (ExcValue "oops")
                              (set_error (Some (ErrPlain "bad input")) r))
           sample_status_table sample_niceCallFunc sample_StatusText 1250 "stack".

(** A server whose BeforeServe hook ends the request. *)
Definition gatekeeper_server : Server :=
  mkServer sample_config sample_search sample_route
           (fun h r => match h with
                       | HookBeforeServe =>
                           Returned (set_exited true (set_Response_Status 403 r))
                       | _ => Returned r
                       end)
           sample_serveFile sample_next sample_status_table
           sample_niceCallFunc sample_StatusText 1250 "stack".

(** A request that was served as a static file and is dispatched again on a
    path that matches no file. *)
Definition request_stale_file : Request :=
  set_URL_Path "/nothing" request_static_streamed.

(** A stage that is called or not. *)
Definition stage_if (called : bool) (h : HookName) : list HookName :=
  if called then [h] else [].

(** The calls that serve a request: the file server and the middleware
    chain. *)
Definition is_serving (e : Event) : bool :=
  match e with
  | EvServeFile _ | EvMiddlewareNext => true
  | _ => false
  end.

(** A hook stage behind the test of the exited flag, as handleHTTPRequest
    and CServeHTTP write it for AfterServe, BeforeOutput and AfterOutput. *)
Definition gated_stage (s : Server) (h : HookName) : M unit :=
  ex <- gets IsExited ;;
  when (negb ex) (callHook s h).

(** handleHTTPRequest after core serving, lines 203-211. *)
Definition afterServe (s : Server) : M unit :=
  gated_stage s HookAfterServe ;; gated_stage s HookBeforeOutput.

(** A dispatch whose BeforeServe hook was called with the exited flag
    reading [entry] and left the request [r2], and whose core serving is the
    call [label] of the handler [h]: the handler runs on [r2]; if it panics
    the dispatch ends there, else the stages after serving run on the request
    it leaves. *)
Definition served_by (s : Server) (entry : bool) (label : Event)
           (h : HandlerFunc) (r2 : Request) : Res unit :=
  match h r2 with
  | Returned r3 =>
      match afterServe s r3 with
      | Ok _ r4 t => Ok tt r4 (EvHook HookBeforeServe entry :: label :: t)
      | Panic x r4 t => Panic x r4 (EvHook HookBeforeServe entry :: label :: t)
      end
  | Panicked x r3 => Panic x r3 [EvHook HookBeforeServe entry; label]
  end.

(** A server without status handlers. *)
Definition plain_server : Server :=
  mkServer sample_config sample_search sample_route quiet_hook
           sample_serveFile sample_next (fun _ _ => [])
           sample_niceCallFunc sample_StatusText 1250 "stack".

(** The request as the BeforeServe hook of [gatekeeper_server] leaves it. *)
Definition request_turned_away : Request :=
  set_exited true (set_Response_Status 403 (fresh_request "/api/x")).

(** A file server that writes the path of the file it serves into the
    buffer, and "no file" when it is handed none. *)
Definition buffering_serveFile (f : option staticFile) : HandlerFunc :=
  fun r =>
    Returned (set_Response_buffer
                (Response_buffer r ++
                 match f with Some x => File_Path x | None => "no file" end) r).

Definition file_server : Server :=
  mkServer sample_config sample_search sample_route quiet_hook
           buffering_serveFile sample_next sample_status_table
           sample_niceCallFunc sample_StatusText 1250 "stack".

(** ** Properties *)

(** *** The monad *)

Lemma bind_trace_in {A B} (m : M A) (k : A -> M B) r e :
  In e (res_trace (bind m k r)) ->
  In e (res_trace (m r)) \/
  exists a r1 t1, m r = Ok a r1 t1 /\ In e (res_trace (k a r1)).
Proof.
  unfold bind. destruct (m r) as [a r1 t1 | x r1 t1] eqn:Hm; simpl.
  - destruct (k a r1) as [b r2 t2 | x r2 t2] eqn:Hk; simpl; intros Hin;
      apply in_app_or in Hin; destruct Hin as [Hin | Hin]; auto;
      right; exists a, r1, t1; rewrite Hk; auto.
  - auto.
Qed.

Lemma bind_trace_l {A B} (m : M A) (k : A -> M B) r e :
  In e (res_trace (m r)) -> In e (res_trace (bind m k r)).
Proof.
  unfold bind. destruct (m r) as [a r1 t1 | x r1 t1]; simpl; auto.
  destruct (k a r1); simpl; intros; apply in_or_app; auto.
Qed.

Lemma bind_trace_r {A B} (m : M A) (k : A -> M B) r a r1 t1 e :
  m r = Ok a r1 t1 -> In e (res_trace (k a r1)) ->
  In e (res_trace (bind m k r)).
Proof.
  intros Hm. unfold bind. rewrite Hm.
  destruct (k a r1); simpl; intros; apply in_or_app; auto.
Qed.

(** *** Steps that always return, and what the steps log *)

(** The session step always returns, and touches neither the status, nor
    the buffer, nor the exited flag. *)
Lemma sessionCookie_returns (s : Server) (r : Request) :
  exists r1 t1,
    sessionCookie s r = Ok tt r1 t1 /\
    Response_Status r1 = Response_Status r /\
    Response_buffer r1 = Response_buffer r /\
    exited r1 = exited r.
Proof.
  unfold sessionCookie, Cookie_SetSessionId, when, bind, gets, modify, emit.
  simpl.
  destruct (SessionCookieOutput (config s) && Session_IsDirty r
            && negb (Session_MustId r =? GetSessionId r)%string);
    simpl; eauto 10.
Qed.

Lemma callHook_trace (s : Server) (h : HookName) (r : Request) :
  res_trace (callHook s h r) = [EvHook h (exited r)].
Proof.
  unfold callHook, call, bind, gets, emit, IsExited. simpl.
  destruct (callHookHandler s h r); reflexivity.
Qed.

(** The status check always returns, logs nothing, and leaves the exited
    flag and the session alone. *)
Lemma statusCheck_returns (r : Request) :
  exists r0,
    statusCheck r = Ok tt r0 [] /\
    exited r0 = exited r /\
    session r0 = session r /\
    inbound_session_id r0 = inbound_session_id r.
Proof.
  unfold statusCheck, when, bind, gets, GetError, BufferLength. simpl.
  destruct (Response_Status r =? 0); simpl; [| eauto].
  destruct (is_some (StaticFile r) || served (Middleware r)
            || (Z.of_nat (String.length (Response_buffer r)) >? 0));
    simpl; [eauto |].
  destruct (error r) as [err |]; simpl; [| eauto].
  destruct (Z.of_nat (String.length (Response_buffer r)) =? 0); simpl; eauto.
Qed.

(** The loop over the status handlers logs calls of status handlers only. *)
Lemma statusHandlerLoop_events (s : Server) (fs : list HandlerFunc) :
  forall r e,
    In e (res_trace (statusHandlerLoop s fs r)) ->
    exists f, e = EvStatusHandler f /\ In f fs.
Proof.
  induction fs as [| f rest IH]; intros r e; simpl.
  - intros [].
  - unfold bind at 1. unfold emit at 1. simpl.
    unfold bind at 1. unfold call at 1.
    destruct (niceCallFunc s f r) as [r1 | x r1]; simpl.
    + unfold bind at 1. unfold gets at 1. simpl.
      destruct (IsExited r1); simpl.
      * intros [H | []]. exists f. auto.
      * destruct (statusHandlerLoop s rest r1) eqn:Hl; simpl;
          (intros [H | H]; [exists f; auto |]);
          specialize (IH r1 e); rewrite Hl in IH; simpl in IH;
          destruct (IH H) as (g & Hg & Hin); exists g; auto.
    + intros [H | []]. exists f. auto.
Qed.

Lemma statusHandler_events (s : Server) (r : Request) (e : Event) :
  In e (res_trace (statusHandler s r)) -> exists f, e = EvStatusHandler f.
Proof.
  unfold statusHandler, when. unfold bind at 1. unfold gets at 1. simpl.
  destruct (negb (Response_Status r =? StatusOK)); simpl.
  - unfold bind at 1. unfold gets at 1. simpl.
    pose proof (statusHandlerLoop_events s
                  (getStatusHandler s (Response_Status r) r) r e) as P.
    destruct (statusHandlerLoop s (getStatusHandler s (Response_Status r) r) r);
      simpl in *; intros H; destruct (P H) as (f & Hf & _); eauto.
  - intros [].
Qed.

(** *** Re-entrant dispatch *)

(** C3: whatever cursor (i, j) the middleware holds when HandleContext is
    called, and however the replay moves it, the cursor is (i, j) again when
    HandleContext returns. *)
Theorem HandleContext_restores_cursor :
  forall (s : Server) (r r' : Request) (tr : list Event),
    HandleContext s r = Ok tt r' tr ->
    handlerIndex (Middleware r') = handlerIndex (Middleware r) /\
    handlerMDIndex (Middleware r') = handlerMDIndex (Middleware r).
Proof.
  intros s r r' tr. unfold HandleContext, bind, gets, modify. simpl.
  destruct (handleHTTPRequest s (set_Middleware (reset (Middleware r)) r))
    as [[] r1 t1 | x r1 t1]; simpl; [| discriminate].
  intros H. inversion H; subst. simpl. split; reflexivity.
Qed.

Lemma HandleContext_restores_cursor_witness :
  exists r' tr,
    HandleContext sample_server request_in_chain = Ok tt r' tr /\
    handlerIndex (Middleware r') = 2 /\
    handlerMDIndex (Middleware r') = 5.
Proof.
  eexists. eexists. split; [reflexivity |].
  eapply (HandleContext_restores_cursor sample_server request_in_chain).
  reflexivity.
Defined.

(** C10: HandleContext does not put the served flag back. The replay starts
    from a chain whose served flag reset has cleared, so the outcome of
    HandleContext does not depend on the flag held before the call, and the
    flag after the call is the one the replay left. *)
Theorem HandleContext_served_not_restored :
  forall (s : Server) (r : Request),
    served (reset (Middleware r)) = false /\
    served (Middleware (res_request (HandleContext s r))) =
    served (Middleware (res_request
      (handleHTTPRequest s (set_Middleware (reset (Middleware r)) r)))) /\
    (forall b : bool,
        HandleContext s (set_Middleware (set_served b (Middleware r)) r) =
        HandleContext s r).
Proof.
  intros s r. split; [reflexivity |]. split.
  - unfold HandleContext, bind, gets, modify. simpl.
    destruct (handleHTTPRequest s (set_Middleware (reset (Middleware r)) r))
      as [[] r1 t1 | x r1 t1]; reflexivity.
  - intros b. reflexivity.
Qed.

(** A chain that has served, re-dispatched to a path nothing serves: the
    cursor comes back, the served flag does not. *)
Example HandleContext_drops_served :
  let r := set_Middleware (mkMiddleware true 2 5) (fresh_request "/nothing") in
  served (Middleware r) = true /\
  Middleware (res_request (HandleContext sample_server r)) = mkMiddleware false 2 5.
Proof. split; reflexivity. Qed.

(** When the replay panics HandleContext does not return, and the cursor is
    left where the replay put it. *)
Example HandleContext_panic_leaves_cursor :
  HandleContext panicking_server request_in_chain =
  Panic (ExcError (ErrPlain "boom"))
        (set_route ([mkHandlerItem "x"], Some (mkHandlerItem "x"), false, true)
           (set_StaticFile None
              (set_Middleware (mkMiddleware false 0 0) request_in_chain)))
        [EvHook HookBeforeServe false; EvMiddlewareNext].
Proof. reflexivity. Qed.

(** *** Default status *)

(** C8: when no status has been set and a handler has written into the
    buffer or the chain is marked served, the status check sets 200, no status
    handler runs, and 200 is what is flushed to the client. *)
Theorem default_status_ok :
  forall (s : Server) (r : Request),
    Response_Status r = 0 ->
    served (Middleware r) = true \/ Response_buffer r <> "" ->
    statusCheck r = Ok tt (set_Response_Status 200 r) [] /\
    statusHandler s (set_Response_Status 200 r) = Ok tt (set_Response_Status 200 r) [] /\
    In (EvResponseFlush 200 (Response_buffer r)) (res_trace (output s r)).
Proof.
  intros s r Hst Hw.
  assert (Hc : statusCheck r = Ok tt (set_Response_Status 200 r) []).
  { unfold statusCheck, bind, gets, when. simpl. rewrite Hst. simpl.
    destruct Hw as [Hs | Hb].
    - rewrite Hs. rewrite orb_true_r. reflexivity.
    - destruct (Response_buffer r) as [| c b]; [congruence |].
      simpl String.length. rewrite orb_true_r. reflexivity. }
  split; [exact Hc |]. split; [reflexivity |].
  unfold output.
  eapply bind_trace_r; [exact Hc |].
  eapply bind_trace_r; [reflexivity |].
  destruct (sessionCookie_returns s (set_Response_Status 200 r))
    as (r1 & t1 & Hs & Hst1 & Hb1 & _).
  eapply bind_trace_r; [exact Hs |].
  eapply bind_trace_r; [reflexivity |].
  apply bind_trace_l.
  unfold Response_Flush, bind, gets, emit, modify. simpl.
  rewrite Hst1, Hb1. simpl. auto.
Qed.

Lemma default_status_ok_witness :
  statusCheck request_with_body = Ok tt (set_Response_Status 200 request_with_body) [] /\
  statusHandler sample_server (set_Response_Status 200 request_with_body) =
    Ok tt (set_Response_Status 200 request_with_body) [] /\
  In (EvResponseFlush 200 "hello") (res_trace (output sample_server request_with_body)).
Proof.
  apply (default_status_ok sample_server request_with_body).
  - reflexivity.
  - right. discriminate.
Defined.

(** C2 fails on a static-file match: the status check then sets 200. *)
Lemma unserved_gives_404_counterexample :
  ~ unserved_gives_404 request_static_streamed.
Proof.
  unfold unserved_gives_404. intros H.
  specialize (H eq_refl eq_refl eq_refl eq_refl).
  vm_compute in H. discriminate.
Qed.

(** The same request through the whole of CServeHTTP: the file is served,
    the middleware chain is not run, and 200 is flushed with an empty
    buffer. *)
Example static_file_served_200 :
  res_trace (CServeHTTP sample_server (fresh_request "/static/exists.html")) =
  [ EvHook HookBeforeServe false;
    EvServeFile (Some (mkStaticFile "/www/static/exists.html" false));
    EvHook HookAfterServe false;
    EvHook HookBeforeOutput false;
    EvCookieFlush;
    EvResponseFlush 200 "";
    EvHook HookAfterOutput false;
    EvAccessLog 200; EvSessionClose; EvBodyClose ].
Proof. reflexivity. Qed.

(** C9: when no status has been set, the buffer is empty, the chain is not
    marked served, there is no static-file match and an error is recorded,
    the status check writes the text of the error into the body and sets
    500. *)
Theorem default_status_error :
  forall (r : Request) (err : GoError),
    Response_Status r = 0 ->
    Response_buffer r = "" ->
    served (Middleware r) = false ->
    StaticFile r = None ->
    error r = Some err ->
    exists r',
      statusCheck r = Ok tt r' [] /\
      Response_buffer r' = gerror.Error err /\
      Response_Status r' = 500 /\
      r' = set_Response_Status 500 (set_Response_buffer (gerror.Error err) r).
Proof.
  intros r err Hst Hb Hs Hf He.
  unfold statusCheck, bind, gets, when, GetError. simpl.
  rewrite Hst. simpl. rewrite Hs, He, Hf. unfold BufferLength. rewrite Hb.
  simpl. rewrite Hb. simpl.
  eexists. split; [reflexivity |]. simpl. rewrite Hb. repeat split.
Qed.

Lemma default_status_error_witness :
  exists r',
    statusCheck request_with_error = Ok tt r' [] /\
    Response_buffer r' = "boom" /\
    Response_Status r' = 500 /\
    r' = set_Response_Status 500 (set_Response_buffer "boom" request_with_error).
Proof.
  apply (default_status_error request_with_error (ErrPlain "boom")); reflexivity.
Defined.

(** *** Session cookie *)

Lemma sessionCookie_iff (s : Server) (r : Request) :
  sets_session_cookie (res_trace (sessionCookie s r)) <-> session_id_is_new s r.
Proof.
  unfold sets_session_cookie, session_id_is_new, sessionCookie,
    Cookie_SetSessionId, when, bind, gets, modify, emit. simpl.
  destruct (SessionCookieOutput (config s)); simpl.
  2: { split; [intros (id & []) | intros (H & _); discriminate]. }
  destruct (Session_IsDirty r); simpl.
  2: { split; [intros (id & []) | intros (_ & H & _); discriminate]. }
  destruct (String.eqb_spec (Session_MustId r) (GetSessionId r)) as [E | E]; simpl.
  - split; [intros (id & []) | intros (_ & _ & H); contradiction].
  - split; [auto | intros _; eexists; left; reflexivity].
Qed.

(** What follows the session step logs no cookie write. *)
Lemma flush_events (s : Server) (r : Request) (id : string) :
  ~ In (EvSetSessionId id)
      (res_trace ((Cookie_Flush ;; Response_Flush ;;
                   ex <- gets IsExited ;;
                   when (negb ex) (callHook s HookAfterOutput)) r)).
Proof.
  intros H.
  apply bind_trace_in in H. destruct H as [H | (a & r1 & t1 & E1 & H)].
  { simpl in H. destruct H as [H | []]. discriminate. }
  apply bind_trace_in in H. destruct H as [H | (a2 & r2 & t2 & E2 & H)].
  { unfold Response_Flush, bind, gets, emit, modify in H. simpl in H.
    destruct H as [H | []]. discriminate. }
  apply bind_trace_in in H. destruct H as [[] | (a3 & r3 & t3 & E3 & H)].
  unfold when in H. destruct (negb a3); simpl in H; [| contradiction].
  rewrite callHook_trace in H. destruct H as [H | []]. discriminate.
Qed.

(** C5: the session id goes into the outbound cookie if and only if cookie
    output is configured, the session is dirty and its id differs from the id
    the request came in with. This holds of the session step on any request,
    and of the whole output phase of CServeHTTP, read on the request as the
    status handlers leave it; the id written is the current id of the
    session. *)
Theorem session_cookie_written_iff :
  forall (s : Server) (r : Request),
    (sets_session_cookie (res_trace (sessionCookie s r)) <-> session_id_is_new s r) /\
    (forall id, In (EvSetSessionId id) (res_trace (sessionCookie s r)) ->
                id = Session_MustId r /\
                Cookie_session_id (res_request (sessionCookie s r)) = Some id) /\
    (forall r0 r1 t1,
        statusCheck r = Ok tt r0 [] ->
        statusHandler s r0 = Ok tt r1 t1 ->
        (sets_session_cookie (res_trace (output s r)) <-> session_id_is_new s r1)).
Proof.
  intros s r. split; [apply sessionCookie_iff |]. split.
  - intros id.
    unfold sessionCookie, Cookie_SetSessionId, when, bind, gets, modify, emit.
    simpl.
    destruct (SessionCookieOutput (config s) && Session_IsDirty r
              && negb (Session_MustId r =? GetSessionId r)%string); simpl.
    + intros [H | []]. inversion H. auto.
    + intros [].
  - intros r0 r1 t1 Hc Hh. rewrite <- (sessionCookie_iff s r1).
    unfold sets_session_cookie. split; intros (id & H); exists id.
    + unfold output in H.
      apply bind_trace_in in H. destruct H as [H | (a & r0' & t0 & E0 & H)].
      { rewrite Hc in H. destruct H. }
      rewrite Hc in E0. inversion E0; subst r0' t0. clear E0.
      apply bind_trace_in in H. destruct H as [H | (a1 & r1' & t1' & E1 & H)].
      { apply statusHandler_events in H. destruct H as (f & H). discriminate. }
      rewrite Hh in E1. inversion E1; subst r1' t1'. clear E1.
      apply bind_trace_in in H. destruct H as [H | (a2 & r2 & t2 & E2 & H)].
      { exact H. }
      exfalso. exact (flush_events s r2 id H).
    + unfold output.
      eapply bind_trace_r; [exact Hc |].
      eapply bind_trace_r; [exact Hh |].
      apply bind_trace_l. exact H.
Qed.

Lemma session_cookie_written_iff_witness :
  sets_session_cookie (res_trace (output sample_server request_new_session)) /\
  Cookie_session_id (res_request (sessionCookie sample_server request_new_session)) =
    Some "new".
Proof.
  destruct (session_cookie_written_iff sample_server request_new_session)
    as (_ & Hid & Hout).
  split.
  - apply (Hout request_new_session request_new_session [] eq_refl eq_refl).
    repeat split. discriminate.
  - apply (Hid "new"). left. reflexivity.
Defined.

Example session_cookie_combinations :
  session_case true true true = [EvSetSessionId "new"] /\
  session_case true true false = [] /\
  session_case true false true = [] /\
  session_case true false false = [] /\
  session_case false true true = [] /\
  session_case false true false = [] /\
  session_case false false true = [] /\
  session_case false false false = [].
Proof. repeat split. Qed.

(** *** Panic recovery *)

(** C6: a panic recovered while the request carries no error is logged
    under the code of the panic value when that is an error with a code,
    under the internal-error code when it is an error without a code
    (wrapped) or not an error at all (a formatted new error); in each case
    status 500 is written, the line carries that code and that status, and
    access logging and the releases follow. It holds for both error loggers
    and for any function body run under the deferred function. *)
Theorem recovered_panic_logged :
  forall (s : Server) (r : Request) (x : Exception),
    error r = None ->
    exists (e : GoError) (r' : Request),
      logged_as s x e /\
      Response_Status r' = 500 /\
      log_code (errorLogContent s e r') = gcode.code_num (gerror.Code e) /\
      log_status (errorLogContent s e r') = 500 /\
      deferred s (handleErrorLog s) (Some x) r =
        Ok true r' (error_log_events s LevelPrint e r' ++ release_events r') /\
      deferred s (cHandleErrorLog s) (Some x) r =
        Ok true r' (error_log_events s LevelError e r' ++ release_events r') /\
      (forall (body : M unit) (r0 : Request) (t : list Event),
          body r0 = Panic x r t ->
          withDeferred s (handleErrorLog s) body r0 =
            Ok tt r' (t ++ error_log_events s LevelPrint e r' ++ release_events r') /\
          withDeferred s (cHandleErrorLog s) body r0 =
            Ok tt r' (t ++ error_log_events s LevelError e r' ++ release_events r')).
Proof.
  intros s r x He.
  set (r' := set_Response_buffer
               (Response_buffer r ++ StatusText s StatusInternalServerError)
               (set_Response_Status StatusInternalServerError
                  (set_LeaveTime (TimestampMilli s) r))).
  assert (D : forall e,
             match x with
             | ExcError v =>
                 if negb (gcode.eqb (gerror.Code v) gcode.CodeNil) then e = v
                 else e = gerror.WrapCodeSkip (callers s) gcode.CodeInternalError v ""
             | ExcValue p => e = gerror.NewCodeSkipf (callers s) gcode.CodeInternalError p
             end ->
             deferred s (handleErrorLog s) (Some x) r =
               Ok true r' (error_log_events s LevelPrint e r' ++ release_events r') /\
             deferred s (cHandleErrorLog s) (Some x) r =
               Ok true r' (error_log_events s LevelError e r' ++ release_events r')).
  { intros e Hx.
    unfold deferred, recoverPanic, handleErrorLog, cHandleErrorLog,
      error_log_events, release_events, WriteStatus, WriteHeader, Write,
      handleAccessLog, Session_Close, Body_Close, Response_Body_Close,
      when, bind, gets, modify, emit, ret.
    simpl. rewrite He. fold r'.
    destruct x as [v | p].
    - destruct (negb (gcode.eqb (gerror.Code v) gcode.CodeNil)); subst e;
        destruct (IsErrorLogEnabled s); simpl;
        destruct (has_client_response r); simpl; split; reflexivity.
    - subst e. destruct (IsErrorLogEnabled s); simpl;
        destruct (has_client_response r); simpl; split; reflexivity. }
  assert (W : forall e,
             deferred s (handleErrorLog s) (Some x) r =
               Ok true r' (error_log_events s LevelPrint e r' ++ release_events r') /\
             deferred s (cHandleErrorLog s) (Some x) r =
               Ok true r' (error_log_events s LevelError e r' ++ release_events r') ->
             forall (body : M unit) (r0 : Request) (t : list Event),
               body r0 = Panic x r t ->
               withDeferred s (handleErrorLog s) body r0 =
                 Ok tt r' (t ++ error_log_events s LevelPrint e r' ++ release_events r') /\
               withDeferred s (cHandleErrorLog s) body r0 =
                 Ok tt r' (t ++ error_log_events s LevelError e r' ++ release_events r')).
  { intros e [D1 D2] body r0 t Hb. unfold withDeferred. rewrite Hb, D1, D2.
    split; reflexivity. }
  destruct x as [v | p].
  - destruct (gcode.eqb (gerror.Code v) gcode.CodeNil) eqn:Hc.
    + exists (gerror.WrapCodeSkip (callers s) gcode.CodeInternalError v ""), r'.
      assert (Dx := D (gerror.WrapCodeSkip (callers s) gcode.CodeInternalError v "")).
      specialize (Dx eq_refl).
      unfold logged_as. rewrite Hc.
      repeat split; try reflexivity; try apply Dx; apply (W _ Dx); assumption.
    + exists v, r'.
      assert (Dx := D v). specialize (Dx eq_refl).
      unfold logged_as. rewrite Hc.
      repeat split; try reflexivity; try apply Dx; apply (W _ Dx); assumption.
  - exists (gerror.NewCodeSkipf (callers s) gcode.CodeInternalError p), r'.
    assert (Dx := D (gerror.NewCodeSkipf (callers s) gcode.CodeInternalError p) eq_refl).
    unfold logged_as.
    repeat split; try reflexivity; try apply Dx; apply (W _ Dx); assumption.
Qed.

Lemma recovered_panic_logged_witness :
  exists (e : GoError) (r' : Request),
    logged_as sample_server (ExcError (ErrPlain "boom")) e /\
    gerror.Code e = gcode.CodeInternalError /\
    Response_Status r' = 500 /\
    deferred sample_server (handleErrorLog sample_server)
      (Some (ExcError (ErrPlain "boom"))) (fresh_request "/api/x") =
    Ok true r' (error_log_events sample_server LevelPrint e r' ++ release_events r').
Proof.
  destruct (recovered_panic_logged sample_server (fresh_request "/api/x")
              (ExcError (ErrPlain "boom")) eq_refl)
    as (e & r' & Hl & Hs & _ & _ & Hd & _).
  exists e, r'. split; [exact Hl |]. split; [exact (proj2 Hl) |].
  split; assumption.
Defined.

(** The handler of /api/x panics with "boom": status 500, one error-log
    line under the internal-error code, access log and releases still
    made. *)
Example panic_scenario :
  CServeHTTP_inlined panicking_server (fresh_request "/api/x") =
  Ok tt
     (set_Response_buffer "Internal Server Error"
        (set_Response_Status 500
           (set_LeaveTime 1250
              (set_route ([mkHandlerItem "x"], Some (mkHandlerItem "x"), false, true)
                 (set_StaticFile None (fresh_request "/api/x"))))))
     [ EvHook HookBeforeServe false;
       EvMiddlewareNext;
       EvErrorLog LevelError
         (mkLogLine 500 250 50 "Internal Error" "" ", Internal Error: boom");
       EvAccessLog 500; EvSessionClose; EvBodyClose ].
Proof. reflexivity. Qed.

(** *** Status handlers *)

Lemma statusHandlerLoop_cons (s : Server) f rest r :
  statusHandlerLoop s (f :: rest) r =
  match niceCallFunc s f r with
  | Returned r1 =>
      if IsExited r1 then Ok tt r1 [EvStatusHandler f]
      else match statusHandlerLoop s rest r1 with
           | Ok _ r2 t2 => Ok tt r2 (EvStatusHandler f :: t2)
           | Panic x r2 t2 => Panic x r2 (EvStatusHandler f :: t2)
           end
  | Panicked x r1 => Panic x r1 [EvStatusHandler f]
  end.
Proof.
  simpl. unfold bind, emit, call, gets.
  destruct (niceCallFunc s f r) as [r1 | x r1]; simpl; [| reflexivity].
  destruct (IsExited r1); simpl; [reflexivity |].
  destruct (statusHandlerLoop s rest r1) as [[] r2 t2 | x r2 t2]; reflexivity.
Qed.

Lemma statusHandlerLoop_run (s : Server) (fs : list HandlerFunc) :
  forall r,
    StatusRun s fs r
      (invoked_status_handlers (res_trace (statusHandlerLoop s fs r)))
      (outcome_of (statusHandlerLoop s fs r)).
Proof.
  induction fs as [| f rest IH]; intros r.
  - constructor.
  - rewrite statusHandlerLoop_cons.
    destruct (niceCallFunc s f r) as [r1 | x r1] eqn:Hf.
    + destruct (IsExited r1) eqn:Hex.
      * simpl. now apply run_exited.
      * specialize (IH r1).
        destruct (statusHandlerLoop s rest r1); simpl in *;
          now apply run_next with (r' := r1).
    + simpl. now apply run_panicked.
Qed.

Lemma statusHandler_eq (s : Server) (r : Request) :
  statusHandler s r =
  if Response_Status r =? 200 then Ok tt r []
  else statusHandlerLoop s (getStatusHandler s (Response_Status r) r) r.
Proof.
  unfold statusHandler, when, bind, gets, StatusOK. simpl.
  destruct (Response_Status r =? 200); simpl; [reflexivity |].
  destruct (statusHandlerLoop s (getStatusHandler s (Response_Status r) r) r)
    as [[] r2 t2 | x r2 t2]; reflexivity.
Qed.

(** A run calls a prefix of the registered handlers, and it calls fewer
    than all of them only when it ended exited or in a panic. *)
Lemma StatusRun_prefix (s : Server) fs r called o :
  StatusRun s fs r called o ->
  exists rest,
    fs = (called ++ rest)%list /\
    (rest = [] \/
     (exists r', o = Returned r' /\ IsExited r' = true) \/
     (exists x r', o = Panicked x r')).
Proof.
  induction 1.
  - exists []. auto.
  - exists rest. split; [reflexivity |]. right. left. eauto.
  - exists rest. split; [reflexivity |]. right. right. eauto.
  - destruct IHStatusRun as (rest' & E & H'). exists rest'. subst rest.
    split; [reflexivity | exact H'].
Qed.

(** C7: with status 200 no status handler is called; with any other status
    the handlers registered for it are called in registration order, each
    through the wrapper, and the loop stops as soon as one of them leaves the
    request exited. *)
Theorem status_handlers_run :
  forall (s : Server) (r : Request),
    let fs := getStatusHandler s (Response_Status r) r in
    let called := invoked_status_handlers (res_trace (statusHandler s r)) in
    if Response_Status r =? 200 then
      statusHandler s r = Ok tt r []
    else
      StatusRun s fs r called (outcome_of (statusHandler s r)) /\
      (fs <> [] -> called <> []) /\
      exists rest,
        fs = (called ++ rest)%list /\
        (rest = [] \/
         (exists r', outcome_of (statusHandler s r) = Returned r' /\ IsExited r' = true) \/
         (exists x r', outcome_of (statusHandler s r) = Panicked x r')).
Proof.
  intros s r. cbv zeta. rewrite statusHandler_eq.
  destruct (Response_Status r =? 200); [reflexivity |].
  pose proof (statusHandlerLoop_run s (getStatusHandler s (Response_Status r) r) r) as R.
  split; [exact R |]. split; [| exact (StatusRun_prefix _ _ _ _ _ R)].
  intros Hne Hnil. rewrite Hnil in R. inversion R; subst; congruence.
Qed.

(** A 404 with three handlers registered, the second of which ends the
    request: the third is not called. *)
Example status_handlers_stop_on_exit :
  invoked_status_handlers
    (res_trace (statusHandler sample_server
                  (set_Response_Status 404 (fresh_request "/nothing")))) =
  [sample_status_page; sample_status_exit].
Proof. reflexivity. Qed.

(** *** Static file or dynamic service *)

Lemma bind_trace {A B} (m : M A) (k : A -> M B) r :
  res_trace (bind m k r) =
  (res_trace (m r) ++
   match m r with
   | Ok a r1 _ => res_trace (k a r1)
   | Panic _ _ _ => []
   end)%list.
Proof.
  unfold bind. destruct (m r) as [a r1 t1 | x r1 t1]; simpl.
  - destruct (k a r1); reflexivity.
  - now rewrite app_nil_r.
Qed.

(** The service search on a request whose path matches a static file. *)
Lemma searchService_static (s : Server) (r : Request) (f : staticFile) :
  FileServerEnabled (config s) = true ->
  searchStaticFile s (URL_Path r) = Some f ->
  exists r1,
    searchService s r = Ok tt r1 [] /\
    StaticFile r1 = Some f /\
    isFileRequest r1 = negb (IsDir f && hasServeHandler r1) /\
    exited r1 = exited r.
Proof.
  intros Hen Hf.
  unfold searchService, when, bind, gets, modify. rewrite Hen. simpl.
  rewrite Hf. simpl. unfold static_is_dir. simpl.
  destruct (IsDir f && _) eqn:Hd; simpl;
    eexists; (split; [reflexivity |]); simpl; rewrite ?Hd; auto.
Qed.

Lemma callHook_returns (s : Server) (h : HookName) (r r2 : Request) :
  callHookHandler s h r = Returned r2 ->
  callHook s h r = Ok tt r2 [EvHook h (exited r)].
Proof.
  intros H. unfold callHook, call, bind, gets, emit, IsExited. simpl.
  now rewrite H.
Qed.

(** A directory match without a serve handler, and a file match with one:
    both go to the file server. *)
Example static_wins :
  res_trace (handleHTTPRequest
               (mkServer sample_config sample_search
                  (fun _ => ([], None, false, false)) quiet_hook
                  sample_serveFile sample_next sample_status_table
                  sample_niceCallFunc sample_StatusText 0 "")
               (fresh_request "/static/")) =
  [ EvHook HookBeforeServe false;
    EvServeFile (Some (mkStaticFile "/www/static" true));
    EvHook HookAfterServe false; EvHook HookBeforeOutput false ] /\
  res_trace (handleHTTPRequest
               (mkServer sample_config sample_search
                  (fun _ => ([mkHandlerItem "x"], Some (mkHandlerItem "x"), false, true))
                  quiet_hook sample_serveFile sample_next sample_status_table
                  sample_niceCallFunc sample_StatusText 0 "")
               (fresh_request "/static/exists.html")) =
  [ EvHook HookBeforeServe false;
    EvServeFile (Some (mkStaticFile "/www/static/exists.html" false));
    EvHook HookAfterServe false; EvHook HookBeforeOutput false ].
Proof. split; reflexivity. Qed.

(** *** Hook stages *)

Lemma bind_assoc {A B C} (m : M A) (k : A -> M B) (k' : B -> M C) r :
  bind (bind m k) k' r = bind m (fun a => bind (k a) k') r.
Proof.
  unfold bind. destruct (m r) as [a r1 t1 | x r1 t1]; [| reflexivity].
  destruct (k a r1) as [b r2 t2 | x r2 t2]; [| reflexivity].
  destruct (k' b r2) as [c r3 t3 | x r3 t3]; now rewrite app_assoc.
Qed.

Lemma bind_ext {A B} (m : M A) (k k' : A -> M B) r :
  (forall a r1, k a r1 = k' a r1) -> bind m k r = bind m k' r.
Proof.
  intros H. unfold bind. destruct (m r) as [a r1 t1 | x r1 t1]; [| reflexivity].
  now rewrite H.
Qed.

(** The function body of the inlined CServeHTTP is handleHTTPRequest
    followed by the output phase. *)
Lemma inlined_body (s : Server) (r : Request) :
  (searchService s ;;
   callHook s HookBeforeServe ;;
   coreServe s ;;
   ex <- gets IsExited ;;
   when (negb ex) (callHook s HookAfterServe) ;;
   ex <- gets IsExited ;;
   when (negb ex) (callHook s HookBeforeOutput) ;;
   statusCheck ;;
   statusHandler s ;;
   sessionCookie s ;;
   Cookie_Flush ;;
   Response_Flush ;;
   ex <- gets IsExited ;;
   when (negb ex) (callHook s HookAfterOutput)) r =
  (handleHTTPRequest s ;; output s) r.
Proof.
  unfold handleHTTPRequest, output. symmetry.
  rewrite bind_assoc. apply bind_ext. intros _ r1.
  rewrite bind_assoc. apply bind_ext. intros _ r2.
  rewrite bind_assoc. apply bind_ext. intros _ r3.
  rewrite bind_assoc. apply bind_ext. intros ex1 r4.
  rewrite bind_assoc. apply bind_ext. intros _ r5.
  rewrite bind_assoc. apply bind_ext. intros ex2 r6.
  reflexivity.
Qed.

Lemma CServeHTTP_inlined_eq (s : Server) (r : Request) :
  CServeHTTP_inlined s r =
  (prepare s ;; withDeferred s (cHandleErrorLog s) (handleHTTPRequest s ;; output s)) r.
Proof.
  unfold CServeHTTP_inlined. apply bind_ext. intros _ r1.
  unfold withDeferred. now rewrite inlined_body.
Qed.

(** The service search and the preparation always return, log nothing and
    leave the exited flag alone. *)
Lemma searchService_returns (s : Server) (r : Request) :
  exists r1, searchService s r = Ok tt r1 [] /\ exited r1 = exited r.
Proof.
  unfold searchService, when, bind, gets, modify.
  destruct (FileServerEnabled (config s)); simpl.
  - destruct (is_some (searchStaticFile s (URL_Path r))); simpl;
      match goal with
      | |- context [if ?c then _ else _] => destruct c
      end; simpl; eauto.
  - match goal with
    | |- context [if ?c then _ else _] => destruct c
    end; simpl; eauto.
Qed.

Lemma prepare_returns (s : Server) (r : Request) :
  exists r1, prepare s r = Ok tt r1 [] /\ exited r1 = exited r.
Proof.
  unfold prepare, when, bind, gets, modify.
  destruct (ClientMaxBodySize (config s) >? 0); simpl;
    destruct (negb (URL_RawPath r =? "")%string); simpl;
    destruct (Z.of_nat (List.length (Rewrites (config s))) >? 0); simpl;
    eauto;
    match goal with
    | |- context [lookup_rewrite ?t ?p] => destruct (lookup_rewrite t p)
    end; simpl; eauto.
Qed.

Ltac split_bind H :=
  let a := fresh "a" in
  let r := fresh "r" in
  let t := fresh "t" in
  let E := fresh "E" in
  apply bind_trace_in in H; destruct H as [H | (a & r & t & E & H)].

Tactic Notation "split_bind_as" hyp(H) ident(a) :=
  let r := fresh "r" in
  let t := fresh "t" in
  let E := fresh "E" in
  apply bind_trace_in in H; destruct H as [H | (a & r & t & E & H)].

(** A hook stage behind the test of the exited flag is called only when the
    flag reads false. *)
Lemma gated_hook_events (s : Server) (h h' : HookName) (b : bool) (r : Request) :
  In (EvHook h' b) (res_trace (when (negb (IsExited r)) (callHook s h) r)) ->
  h' = h /\ b = false.
Proof.
  unfold when, IsExited. destruct (exited r) eqn:Hex; simpl.
  - intros [].
  - rewrite callHook_trace, Hex. intros [H | []]. inversion H. auto.
Qed.

Lemma coreServe_no_hook (s : Server) (r : Request) (h : HookName) (b : bool) :
  ~ In (EvHook h b) (res_trace (coreServe s r)).
Proof.
  unfold coreServe, callServeFile, when, WriteHeader, bind, gets, emit, call,
    modify.
  simpl. destruct (negb (IsExited r)); simpl; [| tauto].
  destruct (isFileRequest r); simpl.
  { destruct (serveFile s (StaticFile r) r); simpl; intros [H | []]; discriminate. }
  destruct (Z.of_nat (List.length (handlers r)) >? 0); simpl.
  { destruct (Middleware_Next s r); simpl; intros [H | []]; discriminate. }
  destruct (static_is_dir r); simpl.
  { destruct (serveFile s (StaticFile r) r); simpl; intros [H | []]; discriminate. }
  match goal with
  | |- context [if ?c then _ else _] => destruct c
  end; simpl; tauto.
Qed.

Lemma errorLog_no_hook (s : Server) (lvl : LogLevel) (e : GoError)
      (r : Request) (h : HookName) (b : bool) :
  ~ In (EvHook h b)
      (res_trace ((match lvl with
                   | LevelPrint => handleErrorLog s
                   | LevelError => cHandleErrorLog s
                   end) e r)).
Proof.
  destruct lvl; unfold handleErrorLog, cHandleErrorLog, bind, gets, emit;
    destruct (negb (IsErrorLogEnabled s)); simpl; intros H;
    try destruct H as [H | []]; try discriminate; assumption.
Qed.

Lemma deferred_no_hook (s : Server) (errorLog : GoError -> M unit)
      (p : option Exception) (r : Request) (h : HookName) (b : bool) :
  (forall e r', ~ In (EvHook h b) (res_trace (errorLog e r'))) ->
  ~ In (EvHook h b) (res_trace (deferred s errorLog p r)).
Proof.
  intros HL H. unfold deferred in H.
  split_bind H; [destruct H |].
  split_bind_as H err; [destruct H |].
  split_bind H.
  { destruct err as [e |].
    - split_bind H; [exact (HL _ _ H) | destruct H].
    - unfold recoverPanic in H. destruct p as [exc |]; [| destruct H].
      split_bind H.
      { unfold WriteStatus, WriteHeader, Write, bind, modify in H. simpl in H.
        destruct H. }
      split_bind H; [| destruct H].
      destruct exc as [v | rendered].
      + destruct (negb (gcode.eqb (gerror.Code v) gcode.CodeNil));
          exact (HL _ _ H).
      + exact (HL _ _ H). }
  split_bind H.
  { unfold handleAccessLog, bind, gets, emit in H. simpl in H.
    destruct H as [H | []]. discriminate. }
  split_bind H; [destruct H as [H | []]; discriminate |].
  split_bind H; [destruct H as [H | []]; discriminate |].
  split_bind_as H hasResp; [destruct H |].
  split_bind H; [| destruct H].
  unfold when, Response_Body_Close in H.
  destruct hasResp; simpl in H; [destruct H as [H | []]; discriminate | destruct H].
Qed.

Example status_handler_after_exit :
  exited request_after_exit = true /\
  res_trace (CServeHTTP exiting_server (fresh_request "/api/x")) =
  [ EvHook HookBeforeServe false; EvMiddlewareNext;
    EvStatusHandler sample_status_page;
    EvCookieFlush; EvResponseFlush 404 "sorry";
    EvAccessLog 404; EvSessionClose; EvBodyClose ].
Proof. split; reflexivity. Qed.

(** C1 fails for BeforeServe: HandleContext on a request that an earlier
    handler marked exited calls the BeforeServe stage all the same. *)
Lemma hooks_gated_counterexample :
  ~ hooks_gated (res_trace (HandleContext exiting_server request_after_exit)).
Proof.
  intros H. apply (H HookBeforeServe). vm_compute. left. reflexivity.
Qed.

(** ** Further properties of the dispatcher *)

(** *** Preparation of the request *)

(** X1: the preparation in CServeHTTP never fails and logs nothing; it
    leaves the request on the raw path when there is one, else on the decoded
    path, put through the rewrite table exactly once (a rewritten path is not
    looked up again), and it sets the body limit exactly when a positive
    maximum is configured. *)
Theorem prepare_path :
  forall (s : Server) (r : Request),
    exists r1,
      prepare s r = Ok tt r1 [] /\
      URL_Path r1 = dispatch_path s r /\
      Body_limit r1 = (if ClientMaxBodySize (config s) >? 0
                       then Some (ClientMaxBodySize (config s))
                       else Body_limit r) /\
      r1 = set_URL_Path (URL_Path r1) (set_Body_limit (Body_limit r1) r).
Proof.
  intros s r. destruct r. unfold prepare, dispatch_path, when, bind, gets, modify.
  simpl.
  destruct (ClientMaxBodySize (config s) >? 0); simpl;
    destruct (_ =? "")%string; simpl;
    destruct (Rewrites (config s)) as [| [k v] tbl]; simpl;
    try (eexists; repeat split; fail);
    destruct (k =? _)%string; simpl;
    try (eexists; repeat split; fail);
    destruct (lookup_rewrite tbl _); simpl; eexists; repeat split.
Qed.

Example rewrite_not_chained :
  URL_Path (res_request (prepare chained_rewrites (fresh_request "/a"))) = "/b" /\
  Body_limit (res_request (prepare chained_rewrites (fresh_request "/a"))) = Some 64.
Proof. split; reflexivity. Qed.

(** *** The deferred function *)

(** What the deferred function does, case by case. *)
Lemma deferred_eq (s : Server) (lvl : LogLevel) (p : option Exception)
      (r : Request) :
  deferred s (errorLogger s lvl) p r =
  let rt := set_LeaveTime (TimestampMilli s) r in
  match error r with
  | Some e => Ok false rt (error_log_events s lvl e rt ++ release_events rt)
  | None =>
      match p with
      | Some x =>
          let r5 := set_Response_buffer
                      (Response_buffer r ++ StatusText s StatusInternalServerError)
                      (set_Response_Status StatusInternalServerError rt) in
          Ok true r5 (error_log_events s lvl (panic_error s x) r5 ++ release_events r5)
      | None => Ok false rt (release_events rt)
      end
  end.
Proof.
  unfold deferred, recoverPanic, errorLogger, panic_error, handleErrorLog,
    cHandleErrorLog, error_log_events, release_events, WriteStatus,
    WriteHeader, Write, handleAccessLog, Session_Close, Body_Close,
    Response_Body_Close, when, bind, gets, modify, emit, ret.
  simpl.
  destruct (error r) as [e |]; [| destruct p as [[v | rendered] |]];
    try destruct (negb (gcode.eqb (gerror.Code v) gcode.CodeNil));
    destruct lvl; destruct (IsErrorLogEnabled s); simpl;
    destruct (has_client_response r); reflexivity.
Qed.

Lemma withDeferred_trace (s : Server) (L : GoError -> M unit) (body : M unit)
      (r : Request) :
  res_trace (withDeferred s L body r) =
  (res_trace (body r) ++
   res_trace (deferred s L (panic_of (body r)) (res_request (body r))))%list.
Proof.
  unfold withDeferred. destruct (body r) as [[] r1 t1 | x r1 t1]; simpl.
  - destruct (deferred s L None r1); reflexivity.
  - destruct (deferred s L (Some x) r1) as [[] r2 t2 | x' r2 t2]; reflexivity.
Qed.

Lemma withDeferred_request (s : Server) (L : GoError -> M unit) (body : M unit)
      (r : Request) :
  res_request (withDeferred s L body r) =
  res_request (deferred s L (panic_of (body r)) (res_request (body r))).
Proof.
  unfold withDeferred. destruct (body r) as [[] r1 t1 | x r1 t1]; simpl.
  - destruct (deferred s L None r1); reflexivity.
  - destruct (deferred s L (Some x) r1) as [[] r2 t2 | x' r2 t2]; reflexivity.
Qed.

Lemma error_log_events_kind (s : Server) lvl e r ev :
  In ev (error_log_events s lvl e r) -> is_error_log ev = true.
Proof.
  unfold error_log_events. destruct (IsErrorLogEnabled s); simpl.
  - intros [<- | []]. reflexivity.
  - intros [].
Qed.

(** X2: whatever the function body does and however it ends, the deferred
    function of CServeHTTP stamps the leave time and ends with the access
    log, the close of the session and the close of the request body (and of
    the client response body when there is one), in this order; between the
    events of the body and these there are only error-log lines. *)
Theorem cleanup_always_runs :
  forall (s : Server) (lvl : LogLevel) (body : M unit) (r : Request),
    let final := res_request (withDeferred s (errorLogger s lvl) body r) in
    LeaveTime final = TimestampMilli s /\
    exists errs,
      res_trace (withDeferred s (errorLogger s lvl) body r) =
        (res_trace (body r) ++ errs ++
         [EvAccessLog (Response_Status final); EvSessionClose; EvBodyClose] ++
         (if has_client_response final then [EvResponseBodyClose] else []))%list /\
      (forall e, In e errs -> is_error_log e = true).
Proof.
  intros s lvl body r final. subst final.
  rewrite withDeferred_request, withDeferred_trace, deferred_eq.
  set (r1 := res_request (body r)). set (p := panic_of (body r)).
  cbv zeta.
  destruct (error r1) as [e |]; [| destruct p as [x |]]; simpl res_request;
    simpl res_trace; (split; [reflexivity |]).
  - eexists. split; [reflexivity |]. apply error_log_events_kind.
  - eexists. split; [reflexivity |]. apply error_log_events_kind.
  - exists []. split; [reflexivity |]. intros e [].
Qed.

Ltac leaf_event H :=
  simpl in H;
  repeat match type of H with
         | _ \/ _ => destruct H as [H | H]
         | False => destruct H
         | _ = _ => subst; reflexivity
         end.

Lemma coreServe_events (s : Server) (r : Request) (e : Event) :
  In e (res_trace (coreServe s r)) -> body_event e = true.
Proof.
  unfold coreServe, callServeFile, when, WriteHeader, bind, gets, emit, call,
    modify.
  simpl. destruct (negb (IsExited r)); simpl; [| tauto].
  destruct (isFileRequest r); simpl.
  { destruct (serveFile s (StaticFile r) r); intros H; leaf_event H. }
  destruct (Z.of_nat (List.length (handlers r)) >? 0); simpl.
  { destruct (Middleware_Next s r); intros H; leaf_event H. }
  destruct (static_is_dir r); simpl.
  { destruct (serveFile s (StaticFile r) r); intros H; leaf_event H. }
  match goal with
  | |- context [if ?c then _ else _] => destruct c
  end; simpl; tauto.
Qed.

Lemma gated_hook_kind (s : Server) (h : HookName) (b : bool) (r : Request)
      (e : Event) :
  In e (res_trace (when b (callHook s h) r)) -> body_event e = true.
Proof.
  unfold when. destruct b; simpl.
  - rewrite callHook_trace. intros H. leaf_event H.
  - intros [].
Qed.

Lemma handleHTTPRequest_events (s : Server) (r : Request) (e : Event) :
  In e (res_trace (handleHTTPRequest s r)) -> body_event e = true.
Proof.
  intros H. unfold handleHTTPRequest in H.
  destruct (searchService_returns s r) as (r1 & Hs & _).
  split_bind H.
  { rewrite Hs in H. destruct H. }
  split_bind H.
  { rewrite callHook_trace in H. leaf_event H. }
  split_bind H.
  { exact (coreServe_events _ _ _ H). }
  split_bind H; [destruct H |].
  split_bind H.
  { exact (gated_hook_kind _ _ _ _ _ H). }
  split_bind H; [destruct H |].
  exact (gated_hook_kind _ _ _ _ _ H).
Qed.

Lemma output_events (s : Server) (r : Request) (e : Event) :
  In e (res_trace (output s r)) -> body_event e = true.
Proof.
  intros H. unfold output in H.
  destruct (statusCheck_returns r) as (r0 & Hc & _).
  split_bind H.
  { rewrite Hc in H. destruct H. }
  split_bind H.
  { apply statusHandler_events in H. destruct H as (f & ->). reflexivity. }
  split_bind H.
  { unfold sessionCookie, Cookie_SetSessionId, when, bind, gets, modify, emit in H.
    simpl in H.
    match type of H with
    | context [if ?c then _ else _] => destruct c
    end; leaf_event H. }
  split_bind H.
  { leaf_event H. }
  split_bind H.
  { unfold Response_Flush, bind, gets, emit, modify in H. leaf_event H. }
  split_bind H; [destruct H |].
  exact (gated_hook_kind _ _ _ _ _ H).
Qed.

Lemma dispatch_events (s : Server) (r : Request) (e : Event) :
  In e (res_trace ((handleHTTPRequest s ;; output s) r)) -> body_event e = true.
Proof.
  intros H. split_bind H.
  - exact (handleHTTPRequest_events _ _ _ H).
  - exact (output_events _ _ _ H).
Qed.

Lemma count_events_app (p : Event -> bool) (t1 t2 : list Event) :
  count_events p (t1 ++ t2) = (count_events p t1 + count_events p t2)%nat.
Proof. unfold count_events. now rewrite filter_app, length_app. Qed.

Lemma count_events_none (p : Event -> bool) (tr : list Event) :
  (forall e, In e tr -> p e = false) -> count_events p tr = 0%nat.
Proof.
  unfold count_events. induction tr as [| e tr IH]; intros H; simpl.
  - reflexivity.
  - rewrite (H e (or_introl eq_refl)). apply IH. intros e' He'.
    apply H. now right.
Qed.

Lemma count_body_events (s : Server) (r : Request) (p : Event -> bool) :
  (forall e, body_event e = true -> p e = false) ->
  count_events p (res_trace ((handleHTTPRequest s ;; output s) r)) = 0%nat.
Proof.
  intros Hp. apply count_events_none. intros e He.
  apply Hp. exact (dispatch_events _ _ _ He).
Qed.

(** The trace of the deferred function: at most one error-log line, then
    the access log and the releases. *)
Lemma deferred_trace (s : Server) (lvl : LogLevel) (p : option Exception)
      (r : Request) :
  exists errs,
    res_trace (deferred s (errorLogger s lvl) p r) =
      (errs ++ release_events (res_request (deferred s (errorLogger s lvl) p r)))%list /\
    (forall e, In e errs -> is_error_log e = true) /\
    List.length errs =
      (if IsErrorLogEnabled s && (is_some (error r) || is_some p)
       then 1%nat else 0%nat).
Proof.
  rewrite deferred_eq. cbv zeta.
  destruct (error r) as [e |]; [| destruct p as [x |]]; simpl res_request;
    simpl res_trace.
  - eexists (error_log_events s lvl e _). split; [reflexivity |].
    split; [apply error_log_events_kind |].
    unfold error_log_events. destruct (IsErrorLogEnabled s); reflexivity.
  - eexists (error_log_events s lvl (panic_error s x) _). split; [reflexivity |].
    split; [apply error_log_events_kind |].
    unfold error_log_events. destruct (IsErrorLogEnabled s); reflexivity.
  - exists []. split; [reflexivity |]. split; [intros e [] |].
    destruct (IsErrorLogEnabled s); reflexivity.
Qed.

Lemma count_all (p : Event -> bool) (tr : list Event) :
  (forall e, In e tr -> p e = true) -> count_events p tr = List.length tr.
Proof.
  unfold count_events. induction tr as [| e tr IH]; intros H; simpl.
  - reflexivity.
  - rewrite (H e (or_introl eq_refl)). simpl. f_equal. apply IH.
    intros e' He'. apply H. now right.
Qed.

(** Both forms of CServeHTTP are the preparation followed by the dispatch
    body under the deferred function. *)
Lemma CServeHTTP_forms (s : Server) (r : Request) :
  exists r1,
    prepare s r = Ok tt r1 [] /\
    CServeHTTP s r =
      withDeferred s (errorLogger s LevelPrint) (handleHTTPRequest s ;; output s) r1 /\
    CServeHTTP_inlined s r =
      withDeferred s (errorLogger s LevelError) (handleHTTPRequest s ;; output s) r1.
Proof.
  destruct (prepare_returns s r) as (r1 & Hp & _). exists r1.
  split; [exact Hp |]. split.
  - unfold CServeHTTP, bind. rewrite Hp. simpl.
    destruct (withDeferred s (handleErrorLog s) _ r1); reflexivity.
  - rewrite CServeHTTP_inlined_eq. unfold bind. rewrite Hp. simpl.
    destruct (withDeferred s (cHandleErrorLog s) _ r1); reflexivity.
Qed.

Lemma release_counts (r : Request) :
  count_events is_access_log (release_events r) = 1%nat /\
  count_events is_session_close (release_events r) = 1%nat /\
  count_events is_body_close (release_events r) = 1%nat /\
  count_events is_error_log (release_events r) = 0%nat.
Proof.
  unfold release_events, count_events.
  destruct (has_client_response r); repeat split.
Qed.

Lemma dispatch_counts (s : Server) (lvl : LogLevel) (r : Request) :
  let run := withDeferred s (errorLogger s lvl) (handleHTTPRequest s ;; output s) r in
  let body := (handleHTTPRequest s ;; output s) r in
  count_events is_access_log (res_trace run) = 1%nat /\
  count_events is_session_close (res_trace run) = 1%nat /\
  count_events is_body_close (res_trace run) = 1%nat /\
  count_events is_error_log (res_trace run) =
    (if IsErrorLogEnabled s
        && (is_some (error (res_request body)) || is_some (panic_of body))
     then 1%nat else 0%nat).
Proof.
  cbv zeta. rewrite withDeferred_trace.
  destruct (deferred_trace s lvl (panic_of ((handleHTTPRequest s ;; output s) r))
              (res_request ((handleHTTPRequest s ;; output s) r)))
    as (errs & Ht & Hk & Hl).
  rewrite Ht. rewrite !count_events_app.
  destruct (release_counts
              (res_request (deferred s (errorLogger s lvl)
                 (panic_of ((handleHTTPRequest s ;; output s) r))
                 (res_request ((handleHTTPRequest s ;; output s) r)))))
    as (Ra & Rs & Rb & Re).
  rewrite Ra, Rs, Rb, Re.
  rewrite !count_body_events by (intros [] He; try discriminate; reflexivity).
  rewrite (count_all is_error_log errs Hk), Hl.
  rewrite !(count_events_none _ errs)
    by (intros e He; apply Hk in He; destruct e; try discriminate; reflexivity).
  repeat split; lia.
Qed.

(** X3: on every path through either form of CServeHTTP (return or panic,
    whatever handler code does) the access log is written exactly once, the
    session is closed exactly once and the request body is closed exactly
    once. *)
Theorem released_exactly_once :
  forall (s : Server) (r : Request),
    (count_events is_access_log (res_trace (CServeHTTP s r)) = 1 /\
     count_events is_session_close (res_trace (CServeHTTP s r)) = 1 /\
     count_events is_body_close (res_trace (CServeHTTP s r)) = 1)%nat /\
    (count_events is_access_log (res_trace (CServeHTTP_inlined s r)) = 1 /\
     count_events is_session_close (res_trace (CServeHTTP_inlined s r)) = 1 /\
     count_events is_body_close (res_trace (CServeHTTP_inlined s r)) = 1)%nat.
Proof.
  intros s r. destruct (CServeHTTP_forms s r) as (r1 & _ & -> & ->).
  destruct (dispatch_counts s LevelPrint r1) as (A1 & S1 & B1 & _).
  destruct (dispatch_counts s LevelError r1) as (A2 & S2 & B2 & _).
  repeat split; assumption.
Qed.

(** X4: a request produces at most one error-log line: exactly one when
    error logging is enabled and the dispatch ended with an error on the
    request or in a panic, and none otherwise; with error logging disabled
    no line is ever written. *)
Theorem error_log_lines :
  forall (s : Server) (r : Request),
    exists r1,
      prepare s r = Ok tt r1 [] /\
      let body := (handleHTTPRequest s ;; output s) r1 in
      let lines :=
        if IsErrorLogEnabled s
           && (is_some (error (res_request body)) || is_some (panic_of body))
        then 1%nat else 0%nat in
      count_events is_error_log (res_trace (CServeHTTP s r)) = lines /\
      count_events is_error_log (res_trace (CServeHTTP_inlined s r)) = lines.
Proof.
  intros s r. destruct (CServeHTTP_forms s r) as (r1 & Hp & -> & ->).
  exists r1. split; [exact Hp |]. cbv zeta.
  destruct (dispatch_counts s LevelPrint r1) as (_ & _ & _ & E1).
  destruct (dispatch_counts s LevelError r1) as (_ & _ & _ & E2).
  split; assumption.
Qed.

(** X5: when the function body panics while the request carries an error,
    the deferred function does not recover the panic: it logs the error of
    the request (not the panic value), leaves status and buffer as they are,
    runs the access log and the releases, and the panic goes on to the
    caller. *)
Theorem panic_with_error_not_recovered :
  forall (s : Server) (lvl : LogLevel) (body : M unit) (r r1 : Request)
         (x : Exception) (t : list Event) (e : GoError),
    body r = Panic x r1 t ->
    error r1 = Some e ->
    let rt := set_LeaveTime (TimestampMilli s) r1 in
    withDeferred s (errorLogger s lvl) body r =
      Panic x rt (t ++ error_log_events s lvl e rt ++ release_events rt) /\
    Response_Status rt = Response_Status r1 /\
    Response_buffer rt = Response_buffer r1.
Proof.
  intros s lvl body r r1 x t e Hb He rt.
  unfold withDeferred. rewrite Hb, deferred_eq, He. cbv zeta.
  repeat split.
Qed.

Lemma panic_with_error_not_recovered_witness :
  exists r' tr,
    withDeferred erring_server (errorLogger erring_server LevelPrint)
      (handleHTTPRequest erring_server ;; output erring_server)
      (fresh_request "/api/x") =
      Panic (ExcValue "oops") r' tr /\
    Response_Status r' = 0 /\
    error r' = Some (ErrPlain "bad input").
Proof.
  pose proof (panic_with_error_not_recovered erring_server LevelPrint
                (handleHTTPRequest erring_server ;; output erring_server)
                (fresh_request "/api/x")
                _ (ExcValue "oops") _ (ErrPlain "bad input") eq_refl eq_refl)
    as (H & _ & _).
  eexists. eexists. split; [exact H |]. split; reflexivity.
Defined.

(** X6: the two forms of CServeHTTP do the same to every request: they
    leave the same request, end the same way (return, or the same panic) and
    log the same events, except that the error-log line of the inlined form
    is at level Error where the other is at level Print. *)
Theorem CServeHTTP_forms_agree :
  forall (s : Server) (r : Request),
    res_request (CServeHTTP_inlined s r) = res_request (CServeHTTP s r) /\
    panic_of (CServeHTTP_inlined s r) = panic_of (CServeHTTP s r) /\
    res_trace (CServeHTTP_inlined s r) = map at_level_error (res_trace (CServeHTTP s r)).
Proof.
  intros s r. destruct (CServeHTTP_forms s r) as (r1 & _ & -> & ->).
  assert (Hbody : map at_level_error
                    (res_trace ((handleHTTPRequest s ;; output s) r1)) =
                  res_trace ((handleHTTPRequest s ;; output s) r1)).
  { pose proof (dispatch_events s r1) as Hk.
    induction (res_trace ((handleHTTPRequest s ;; output s) r1)) as [| e tr IH];
      simpl; [reflexivity |].
    rewrite IH by (intros e' He'; apply Hk; now right).
    specialize (Hk e (or_introl eq_refl)).
    destruct e; try discriminate; reflexivity. }
  assert (Hrel : forall q, map at_level_error (release_events q) = release_events q).
  { intros q. unfold release_events. destruct (has_client_response q); reflexivity. }
  assert (Herr : forall e q, map at_level_error (error_log_events s LevelPrint e q) =
                             error_log_events s LevelError e q).
  { intros e q. unfold error_log_events. destruct (IsErrorLogEnabled s); reflexivity. }
  unfold withDeferred.
  destruct ((handleHTTPRequest s ;; output s) r1) as [[] r2 t2 | x r2 t2];
    rewrite !deferred_eq; cbv zeta; simpl in Hbody.
  - destruct (error r2); simpl; rewrite ?map_app, ?Hbody, ?Hrel, ?Herr; auto.
  - destruct (error r2); simpl; rewrite ?map_app, ?Hbody, ?Hrel, ?Herr; auto.
Qed.

(** *** The error-log line *)

Lemma newlines_to_spaces_clean (d : string) :
  has_newline (newlines_to_spaces d) = false /\
  String.length (newlines_to_spaces d) = String.length d.
Proof.
  induction d as [| c d [IH1 IH2]]; simpl; [split; reflexivity |].
  rewrite IH1, IH2. split; [| reflexivity].
  destruct (Ascii.eqb c (ascii_of_nat 10)) eqn:E; simpl.
  - reflexivity.
  - now rewrite E.
Qed.

(** X7: the detail field of an error-log line never holds a line break,
    whatever the detail of the error code: every newline of the detail is
    replaced by one space, so the field keeps its length; a code without
    detail gives an empty field. *)
Theorem log_detail_single_line :
  forall (s : Server) (err : GoError) (r : Request),
    has_newline (log_detail (errorLogContent s err r)) = false /\
    String.length (log_detail (errorLogContent s err r)) =
      match gcode.code_detail (gerror.Code err) with
      | Some d => String.length d
      | None => 0%nat
      end.
Proof.
  intros s err r. unfold errorLogContent. simpl.
  destruct (gcode.code_detail (gerror.Code err)) as [d |].
  - apply newlines_to_spaces_clean.
  - split; reflexivity.
Qed.

(** *** Re-entrant dispatch, continued *)

(** X8: HandleContext restores the cursor only on return. When the replay
    panics, HandleContext passes the panic on with the request exactly as the
    replay left it, cursor included. *)
Theorem HandleContext_panic_not_restored :
  forall (s : Server) (r r1 : Request) (x : Exception) (t : list Event),
    handleHTTPRequest s (set_Middleware (reset (Middleware r)) r) = Panic x r1 t ->
    HandleContext s r = Panic x r1 t.
Proof.
  intros s r r1 x t H. unfold HandleContext, bind, gets, modify. simpl.
  now rewrite H.
Qed.

Lemma HandleContext_panic_not_restored_witness :
  exists r1 t,
    HandleContext panicking_server request_in_chain =
      Panic (ExcError (ErrPlain "boom")) r1 t /\
    handlerIndex (Middleware request_in_chain) = 2 /\
    handlerIndex (Middleware r1) = 0.
Proof.
  eexists. eexists. split; [| split].
  - apply (HandleContext_panic_not_restored panicking_server request_in_chain).
    reflexivity.
  - reflexivity.
  - reflexivity.
Defined.

(** *** Core serving *)

(** X9: when the request is neither a file request nor has handlers nor
    matched a directory, core serving writes 404 only onto a response that is
    still untouched (no header, no status, empty buffer); a response that a
    hook has begun is left exactly as it is. Nothing is logged either way. *)
Theorem not_found_only_when_untouched :
  forall (s : Server) (r : Request),
    IsExited r = false ->
    isFileRequest r = false ->
    handlers r = [] ->
    static_is_dir r = false ->
    (Response_Header r = [] /\ Response_Status r = 0 /\ Response_buffer r = "" ->
     coreServe s r = Ok tt (set_Response_Status 404 r) []) /\
    (Response_Header r <> [] \/ Response_Status r <> 0 \/ Response_buffer r <> "" ->
     coreServe s r = Ok tt r []).
Proof.
  intros s r Hex Hfr Hh Hd.
  unfold coreServe, callServeFile, when, WriteHeader, BufferLength, bind, gets,
    emit, call, modify.
  simpl. rewrite Hex. simpl. rewrite Hfr. simpl. rewrite Hh. simpl.
  rewrite Hd. simpl. split.
  - intros (H1 & H2 & H3). rewrite H1, H2, H3. reflexivity.
  - intros H.
    assert (E : (Z.of_nat (List.length (Response_Header r)) =? 0)
                && (Response_Status r =? 0)
                && (Z.of_nat (String.length (Response_buffer r)) =? 0) = false).
    { destruct H as [H | [H | H]].
      - destruct (Response_Header r); [congruence | reflexivity].
      - apply Z.eqb_neq in H. rewrite H. now rewrite andb_false_r.
      - destruct (Response_buffer r); [congruence |].
        simpl String.length. now rewrite andb_false_r. }
    rewrite E. reflexivity.
Qed.

Lemma not_found_only_when_untouched_witness :
  coreServe sample_server (fresh_request "/nothing") =
    Ok tt (set_Response_Status 404 (fresh_request "/nothing")) [] /\
  coreServe sample_server (set_Response_buffer "hi" (fresh_request "/nothing")) =
    Ok tt (set_Response_buffer "hi" (fresh_request "/nothing")) [].
Proof.
  split.
  - apply (not_found_only_when_untouched sample_server (fresh_request "/nothing"));
      try reflexivity. repeat split.
  - apply (not_found_only_when_untouched sample_server
             (set_Response_buffer "hi" (fresh_request "/nothing")));
      try reflexivity. right. right. discriminate.
Defined.

(** X10: when the BeforeServe hook returns with the request marked exited,
    handleHTTPRequest serves nothing and calls no further hook stage: it
    returns the request as the hook left it. *)
Theorem before_serve_exit_skips_serving :
  forall (s : Server) (r r2 : Request),
    callHookHandler s HookBeforeServe (res_request (searchService s r)) = Returned r2 ->
    IsExited r2 = true ->
    handleHTTPRequest s r = Ok tt r2 [EvHook HookBeforeServe (exited r)].
Proof.
  intros s r r2 Hh Hex.
  destruct (searchService_returns s r) as (r1 & Hs & Hex1).
  rewrite Hs in Hh. simpl in Hh.
  unfold handleHTTPRequest. unfold bind at 1. rewrite Hs.
  unfold bind at 1. rewrite (callHook_returns _ _ _ _ Hh), Hex1.
  unfold coreServe, when, bind, gets, ret, IsExited in *. simpl.
  rewrite Hex. simpl. rewrite ?Hex. simpl. rewrite ?Hex. reflexivity.
Qed.

Lemma before_serve_exit_skips_serving_witness :
  exists r2,
    handleHTTPRequest gatekeeper_server (fresh_request "/api/x") =
      Ok tt r2 [EvHook HookBeforeServe false] /\
    Response_Status r2 = 403.
Proof.
  eexists. split.
  - apply (before_serve_exit_skips_serving gatekeeper_server (fresh_request "/api/x"));
      reflexivity.
  - reflexivity.
Defined.

(** X11: with file serving disabled the static file search is never
    consulted: handleHTTPRequest, HandleContext and CServeHTTP behave the
    same whatever the search would answer. *)
Theorem file_search_unused_when_disabled :
  forall (s : Server) (search : string -> option staticFile) (r : Request),
    FileServerEnabled (config s) = false ->
    handleHTTPRequest (with_searchStaticFile search s) r = handleHTTPRequest s r /\
    HandleContext (with_searchStaticFile search s) r = HandleContext s r /\
    CServeHTTP (with_searchStaticFile search s) r = CServeHTTP s r.
Proof.
  intros s search r Hoff.
  assert (Hs : forall q, searchService (with_searchStaticFile search s) q =
                         searchService s q).
  { intros q. unfold searchService, when. simpl. rewrite Hoff. reflexivity. }
  assert (Hh : forall q, handleHTTPRequest (with_searchStaticFile search s) q =
                         handleHTTPRequest s q).
  { intros q. unfold handleHTTPRequest. unfold bind at 1 6. rewrite Hs.
    reflexivity. }
  split; [apply Hh |]. split.
  - unfold HandleContext, bind, gets, modify. simpl. rewrite Hh. reflexivity.
  - assert (Hb : forall q,
               (handleHTTPRequest (with_searchStaticFile search s) ;;
                output (with_searchStaticFile search s)) q =
               (handleHTTPRequest s ;; output s) q).
    { intros q. unfold bind. rewrite Hh. reflexivity. }
    unfold CServeHTTP. apply bind_ext. intros _ q.
    unfold withDeferred. rewrite Hb. reflexivity.
Qed.

Lemma file_search_unused_when_disabled_witness :
  handleHTTPRequest (with_searchStaticFile sample_search chained_rewrites)
                    (fresh_request "/static/exists.html") =
  handleHTTPRequest chained_rewrites (fresh_request "/static/exists.html").
Proof.
  apply (file_search_unused_when_disabled chained_rewrites sample_search
           (fresh_request "/static/exists.html")).
  reflexivity.
Defined.

(** *** Status and output *)

(** X13: the status check never overrides a status that has been set, even
    when an error is recorded; afterwards the response always has a status
    (200, 404 or 500 when none was set); the buffer is written only in the
    error case on an empty buffer; and running the check again changes
    nothing. *)
Theorem status_check_settles :
  forall (r : Request),
    let r' := res_request (statusCheck r) in
    (Response_Status r <> 0 -> statusCheck r = Ok tt r []) /\
    (Response_Status r = 0 ->
     Response_Status r' = 200 \/ Response_Status r' = 404 \/ Response_Status r' = 500) /\
    Response_Status r' <> 0 /\
    (Response_buffer r' = Response_buffer r \/
     exists err, error r = Some err /\ Response_buffer r = "" /\
                 Response_buffer r' = gerror.Error err) /\
    statusCheck r' = Ok tt r' [].
Proof.
  intros r r'.
  assert (Hset : forall q, Response_Status q <> 0 -> statusCheck q = Ok tt q []).
  { intros q Hq. unfold statusCheck, when, bind, gets. simpl.
    apply Z.eqb_neq in Hq. rewrite Hq. reflexivity. }
  assert (Hcases :
            (Response_Status r <> 0 /\ r' = r) \/
            (Response_Status r = 0 /\
             (r' = set_Response_Status 200 r \/
              r' = set_Response_Status 404 r \/
              exists err, error r = Some err /\
                (r' = set_Response_Status 500 r /\ Response_buffer r <> "" \/
                 r' = set_Response_Status 500
                        (set_Response_buffer (gerror.Error err) r) /\
                 Response_buffer r = "")))).
  { subst r'. unfold statusCheck, when, bind, gets, GetError, BufferLength,
      WriteHeader, Write, modify.
    simpl. destruct (Z.eqb_spec (Response_Status r) 0) as [E | E]; simpl;
      [right; split; [exact E |] | left; split; [exact E | reflexivity]].
    destruct (is_some (StaticFile r) || served (Middleware r)
              || (Z.of_nat (String.length (Response_buffer r)) >? 0)); simpl;
      [left; reflexivity |].
    destruct (error r) as [err |]; simpl; [| right; left; reflexivity].
    right. right. exists err. split; [reflexivity |].
    destruct (Response_buffer r) eqn:Hb; simpl.
    - right. rewrite Hb. split; reflexivity.
    - left. split; [reflexivity | discriminate]. }
  split; [apply Hset |].
  destruct Hcases as [[Hn ->] | [Hz [-> | [-> | (err & He & [[-> Hb] | [-> Hb]])]]]];
    simpl; repeat split; try congruence; try lia; auto;
    try (apply Hset; simpl; lia).
  - right. exists err. rewrite Hb. auto.
Qed.

(** X14: the status handlers are not held back by the exited flag: on a
    request that is already exited and whose status is not 200, the first
    registered handler is still called, and when it returns with the request
    still exited it is the only one. *)
Theorem status_handler_runs_on_exited_request :
  forall (s : Server) (r r' : Request) (f : HandlerFunc) (rest : list HandlerFunc),
    IsExited r = true ->
    Response_Status r <> 200 ->
    getStatusHandler s (Response_Status r) r = f :: rest ->
    niceCallFunc s f r = Returned r' ->
    IsExited r' = true ->
    statusHandler s r = Ok tt r' [EvStatusHandler f].
Proof.
  intros s r r' f rest _ Hst Hfs Hcall Hex.
  rewrite statusHandler_eq. apply Z.eqb_neq in Hst. rewrite Hst, Hfs.
  rewrite statusHandlerLoop_cons, Hcall, Hex. reflexivity.
Qed.

Lemma status_handler_runs_on_exited_request_witness :
  exists r',
    statusHandler exiting_server request_after_exit =
      Ok tt r' [EvStatusHandler sample_status_page] /\
    Response_buffer r' = "sorry".
Proof.
  eexists. split.
  - apply (status_handler_runs_on_exited_request exiting_server request_after_exit
             _ sample_status_page []); reflexivity || discriminate.
  - reflexivity.
Defined.

Lemma flush_trace (s : Server) (r : Request) :
  res_trace ((Cookie_Flush ;; Response_Flush ;;
              ex <- gets IsExited ;;
              when (negb ex) (callHook s HookAfterOutput)) r) =
  ([EvCookieFlush; EvResponseFlush (Response_Status r) (Response_buffer r)] ++
   (if exited r then [] else [EvHook HookAfterOutput false]))%list.
Proof.
  assert (HF : Response_Flush r =
               Ok tt (set_Response_buffer "" r)
                  [EvResponseFlush (Response_Status r) (Response_buffer r)])
    by reflexivity.
  rewrite bind_trace.
  change (Cookie_Flush r) with (@Ok unit tt r [EvCookieFlush]).
  cbv beta iota. simpl res_trace at 1.
  rewrite bind_trace, HF. cbv beta iota. simpl res_trace at 1.
  rewrite bind_trace. unfold gets at 1 2. cbv beta iota. simpl res_trace at 1.
  unfold when, IsExited.
  change (exited (set_Response_buffer "" r)) with (exited r).
  destruct (exited r) eqn:Hex; simpl.
  - reflexivity.
  - rewrite callHook_trace. simpl. rewrite Hex. reflexivity.
Qed.

(** X15: whenever the status handlers return, the output phase flushes the
    cookies and then the response, with the status and the buffer the status
    handlers left, whether or not the request is exited; the exited flag only
    withholds the AfterOutput stage. *)
Theorem output_flushes_even_when_exited :
  forall (s : Server) (r r1 : Request) (t1 : list Event),
    statusHandler s (res_request (statusCheck r)) = Ok tt r1 t1 ->
    res_trace (output s r) =
    (t1 ++ res_trace (sessionCookie s r1) ++
     [EvCookieFlush; EvResponseFlush (Response_Status r1) (Response_buffer r1)] ++
     (if exited r1 then [] else [EvHook HookAfterOutput false]))%list.
Proof.
  intros s r r1 t1 Hh.
  destruct (statusCheck_returns r) as (r0 & Hc & _).
  rewrite Hc in Hh. simpl in Hh.
  destruct (sessionCookie_returns s r1) as (r2 & tc & Hs & Hst & Hb & Hex).
  unfold output.
  rewrite bind_trace, Hc. cbv beta iota. simpl res_trace at 1.
  rewrite bind_trace, Hh. cbv beta iota. simpl res_trace at 1.
  rewrite app_nil_l. f_equal.
  rewrite bind_trace, Hs. cbv beta iota. simpl res_trace at 1 2. f_equal.
  rewrite flush_trace, Hst, Hb, Hex. reflexivity.
Qed.

Lemma output_flushes_even_when_exited_witness :
  res_trace (output exiting_server
               (res_request (handleHTTPRequest exiting_server (fresh_request "/api/x")))) =
  [EvStatusHandler sample_status_page; EvCookieFlush; EvResponseFlush 404 "sorry"].
Proof.
  rewrite (output_flushes_even_when_exited exiting_server
             (res_request (handleHTTPRequest exiting_server (fresh_request "/api/x")))
             _ _ eq_refl).
  reflexivity.
Defined.

(** *** Order of the hook stages *)

Lemma hook_names_app (t1 t2 : list Event) :
  hook_names (t1 ++ t2) = (hook_names t1 ++ hook_names t2)%list.
Proof. unfold hook_names. apply flat_map_app. Qed.

Lemma hook_names_none (tr : list Event) :
  (forall h b, ~ In (EvHook h b) tr) -> hook_names tr = [].
Proof.
  induction tr as [| e tr IH]; intros H; simpl; [reflexivity |].
  rewrite IH by (intros h b Hin; apply (H h b); now right).
  destruct e; try reflexivity. exfalso. apply (H h exitedAtCall). now left.
Qed.

Lemma bind_names {A B} (m : M A) (k : A -> M B) (r : Request) :
  exists tail,
    hook_names (res_trace (bind m k r)) =
      (hook_names (res_trace (m r)) ++ tail)%list /\
    (tail = [] \/
     exists a r1 t1, m r = Ok a r1 t1 /\ tail = hook_names (res_trace (k a r1))).
Proof.
  rewrite bind_trace, hook_names_app.
  destruct (m r) as [a r1 t1 | x r1 t1]; eexists; (split; [reflexivity |]).
  - right. eauto.
  - left. reflexivity.
Qed.

Lemma gated_names (s : Server) (h : HookName) (b : bool) (r : Request) :
  hook_names (res_trace (when b (callHook s h) r)) = stage_if b h.
Proof.
  unfold when, stage_if. destruct b; simpl; [| reflexivity].
  now rewrite callHook_trace.
Qed.

Lemma last_stage_names (s : Server) (h : HookName) (r : Request) :
  exists c,
    hook_names (res_trace ((ex <- gets IsExited ;;
                            when (negb ex) (callHook s h)) r)) = stage_if c h.
Proof.
  rewrite bind_trace. unfold gets at 1 2. simpl.
  exists (negb (IsExited r)). apply gated_names.
Qed.

Lemma handleHTTPRequest_names (s : Server) (r : Request) :
  exists a b,
    hook_names (res_trace (handleHTTPRequest s r)) =
    (HookBeforeServe :: stage_if a HookAfterServe ++ stage_if b HookBeforeOutput)%list.
Proof.
  unfold handleHTTPRequest.
  destruct (searchService_returns s r) as (r1 & Hs & _).
  rewrite bind_trace, Hs. simpl.
  destruct (bind_names (callHook s HookBeforeServe)
              (fun _ => coreServe s ;;
                        ex <- gets IsExited ;;
                        when (negb ex) (callHook s HookAfterServe) ;;
                        ex0 <- gets IsExited ;;
                        when (negb ex0) (callHook s HookBeforeOutput)) r1)
    as (t1 & -> & [-> | (a1 & r2 & u1 & _ & ->)]);
    rewrite callHook_trace; simpl.
  { exists false, false. reflexivity. }
  destruct (bind_names (coreServe s)
              (fun _ => ex <- gets IsExited ;;
                        when (negb ex) (callHook s HookAfterServe) ;;
                        ex0 <- gets IsExited ;;
                        when (negb ex0) (callHook s HookBeforeOutput)) r2)
    as (t2 & -> & [-> | (a2 & r3 & u2 & _ & ->)]);
    rewrite (hook_names_none (res_trace (coreServe s r2)))
      by (intros h b; apply coreServe_no_hook); simpl.
  { exists false, false. reflexivity. }
  rewrite bind_trace. unfold gets at 1 2. simpl.
  destruct (bind_names (when (negb (IsExited r3)) (callHook s HookAfterServe))
              (fun _ => ex0 <- gets IsExited ;;
                        when (negb ex0) (callHook s HookBeforeOutput)) r3)
    as (t3 & -> & [-> | (a3 & r4 & u3 & _ & ->)]);
    rewrite gated_names.
  { exists (negb (IsExited r3)), false. reflexivity. }
  destruct (last_stage_names s HookBeforeOutput r4) as (c & ->).
  exists (negb (IsExited r3)), c. reflexivity.
Qed.

Lemma statusHandler_names (s : Server) (r : Request) :
  hook_names (res_trace (statusHandler s r)) = [].
Proof.
  apply hook_names_none. intros h b H.
  apply statusHandler_events in H. destruct H as (f & H). discriminate.
Qed.

Lemma sessionCookie_names (s : Server) (r : Request) :
  hook_names (res_trace (sessionCookie s r)) = [].
Proof.
  unfold sessionCookie, Cookie_SetSessionId, when, bind, gets, modify, emit.
  simpl.
  match goal with
  | |- context [if ?c then _ else _] => destruct c
  end; reflexivity.
Qed.

Lemma output_names (s : Server) (r : Request) :
  exists c, hook_names (res_trace (output s r)) = stage_if c HookAfterOutput.
Proof.
  unfold output.
  destruct (statusCheck_returns r) as (r0 & Hc & _).
  rewrite bind_trace, Hc. simpl.
  destruct (bind_names (statusHandler s)
              (fun _ => sessionCookie s ;; Cookie_Flush ;; Response_Flush ;;
                        ex <- gets IsExited ;;
                        when (negb ex) (callHook s HookAfterOutput)) r0)
    as (t1 & -> & [-> | (a1 & r1 & u1 & _ & ->)]);
    rewrite statusHandler_names; simpl.
  { exists false. reflexivity. }
  destruct (bind_names (sessionCookie s)
              (fun _ => Cookie_Flush ;; Response_Flush ;;
                        ex <- gets IsExited ;;
                        when (negb ex) (callHook s HookAfterOutput)) r1)
    as (t2 & -> & [-> | (a2 & r2 & u2 & _ & ->)]);
    rewrite sessionCookie_names; simpl.
  { exists false. reflexivity. }
  rewrite flush_trace. exists (negb (exited r2)).
  destruct (exited r2); reflexivity.
Qed.

(** X16: one activation of the dispatcher makes its own hook calls in
    pipeline order, each at most once: BeforeServe always and first, then
    AfterServe, BeforeOutput and AfterOutput, each called or left out. This
    holds of one activation of handleHTTPRequest (which never reaches
    AfterOutput) and of one activation of either form of CServeHTTP, whether
    the handlers it calls return or panic. The hook calls of a HandleContext
    that handler code issues meanwhile are those of that further activation
    of handleHTTPRequest, with its own such sequence. *)
Theorem hook_stages_in_order :
  forall (s : Server) (r : Request),
    (exists a b,
        hook_names (res_trace (handleHTTPRequest s r)) =
        (HookBeforeServe :: stage_if a HookAfterServe
                         ++ stage_if b HookBeforeOutput)%list) /\
    (exists a b c,
        hook_names (res_trace (CServeHTTP s r)) =
        (HookBeforeServe :: stage_if a HookAfterServe
                         ++ stage_if b HookBeforeOutput
                         ++ stage_if c HookAfterOutput)%list /\
        hook_names (res_trace (CServeHTTP_inlined s r)) =
        (HookBeforeServe :: stage_if a HookAfterServe
                         ++ stage_if b HookBeforeOutput
                         ++ stage_if c HookAfterOutput)%list).
Proof.
  intros s r. split; [apply handleHTTPRequest_names |].
  destruct (CServeHTTP_forms s r) as (r1 & _ & -> & ->).
  assert (Hbody : exists a b c,
             hook_names (res_trace ((handleHTTPRequest s ;; output s) r1)) =
             (HookBeforeServe :: stage_if a HookAfterServe
                              ++ stage_if b HookBeforeOutput
                              ++ stage_if c HookAfterOutput)%list).
  { destruct (bind_names (handleHTTPRequest s) (fun _ => output s) r1)
      as (t & -> & Ht).
    destruct (handleHTTPRequest_names s r1) as (a & b & ->).
    destruct Ht as [-> | (u & r2 & t2 & _ & ->)].
    - exists a, b, false. simpl. now rewrite !app_nil_r.
    - destruct (output_names s r2) as (c & ->). exists a, b, c.
      simpl. now rewrite <- app_assoc. }
  destruct Hbody as (a & b & c & Hb). exists a, b, c.
  assert (Hdef : forall lvl p q,
             hook_names (res_trace (deferred s (errorLogger s lvl) p q)) = []).
  { intros lvl p q. apply hook_names_none. intros h e.
    apply deferred_no_hook. intros e' r'. apply (errorLog_no_hook s lvl). }
  rewrite !withDeferred_trace, !hook_names_app, !Hdef, Hb, !app_nil_r.
  split; reflexivity.
Qed.

(** *** One serving action per dispatch *)

Lemma coreServe_count (s : Server) (r : Request) :
  (count_events is_serving (res_trace (coreServe s r)) <= 1)%nat.
Proof.
  unfold coreServe, callServeFile, when, WriteHeader, bind, gets, emit, call,
    modify, count_events.
  simpl. destruct (negb (IsExited r)); simpl; [| lia].
  destruct (isFileRequest r); simpl.
  { destruct (serveFile s (StaticFile r) r); simpl; lia. }
  destruct (Z.of_nat (List.length (handlers r)) >? 0); simpl.
  { destruct (Middleware_Next s r); simpl; lia. }
  destruct (static_is_dir r); simpl.
  { destruct (serveFile s (StaticFile r) r); simpl; lia. }
  match goal with
  | |- context [if ?c then _ else _] => destruct c
  end; simpl; lia.
Qed.

Lemma after_serve_events (s : Server) (r : Request) (e : Event) :
  In e (res_trace ((ex <- gets IsExited ;;
                    when (negb ex) (callHook s HookAfterServe) ;;
                    ex0 <- gets IsExited ;;
                    when (negb ex0) (callHook s HookBeforeOutput)) r)) ->
  is_serving e = false.
Proof.
  intros H.
  assert (G : forall h b q, In e (res_trace (when b (callHook s h) q)) ->
                            is_serving e = false).
  { intros h b q Hq. unfold when in Hq. destruct b; simpl in Hq; [| destruct Hq].
    rewrite callHook_trace in Hq. destruct Hq as [<- | []]. reflexivity. }
  split_bind H; [destruct H |].
  split_bind H; [exact (G _ _ _ H) |].
  split_bind H; [destruct H |].
  exact (G _ _ _ H).
Qed.

(** X17: one dispatch serves at most once: handleHTTPRequest calls the file
    server or the middleware chain at most one time, never both and never
    twice, and so does HandleContext for its replay. *)
Theorem serves_at_most_once :
  forall (s : Server) (r : Request),
    (count_events is_serving (res_trace (handleHTTPRequest s r)) <= 1)%nat /\
    (count_events is_serving (res_trace (HandleContext s r)) <= 1)%nat.
Proof.
  assert (H : forall s q,
             (count_events is_serving (res_trace (handleHTTPRequest s q)) <= 1)%nat).
  { intros s q. unfold handleHTTPRequest.
    destruct (searchService_returns s q) as (r1 & Hs & _).
    rewrite bind_trace, Hs. simpl.
    rewrite bind_trace, count_events_app, callHook_trace.
    change (count_events is_serving [EvHook HookBeforeServe (exited r1)]) with 0%nat.
    destruct (callHook s HookBeforeServe r1) as [[] r2 t2 | x r2 t2];
      [| unfold count_events; simpl; lia].
    rewrite bind_trace, count_events_app.
    pose proof (coreServe_count s r2) as Hc.
    destruct (coreServe s r2) as [[] r3 t3 | x r3 t3]; simpl res_trace in *.
    - rewrite (count_events_none is_serving
                 (res_trace ((ex <- gets IsExited ;;
                              when (negb ex) (callHook s HookAfterServe) ;;
                              ex0 <- gets IsExited ;;
                              when (negb ex0) (callHook s HookBeforeOutput)) r3)))
        by (intros e He; exact (after_serve_events s r3 e He)).
      lia.
    - change (count_events is_serving []) with 0%nat. lia. }
  intros s r. split; [apply H |].
  unfold HandleContext.
  rewrite bind_trace. unfold gets at 1 2. simpl.
  rewrite bind_trace. unfold gets at 1 2. simpl.
  rewrite bind_trace. unfold modify at 1 2. simpl.
  rewrite bind_trace, count_events_app.
  pose proof (H s (set_Middleware (reset (Middleware r)) r)) as Hr.
  destruct (handleHTTPRequest s (set_Middleware (reset (Middleware r)) r))
    as [[] r1 t1 | x r1 t1]; simpl in *.
  - change (count_events is_serving []) with 0%nat. lia.
  - change (count_events is_serving []) with 0%nat. lia.
Qed.

(** ** The dispatch by state *)

(** *** Stages of the dispatch *)

Lemma callHook_eq (s : Server) (h : HookName) (r : Request) :
  callHook s h r =
  match callHookHandler s h r with
  | Returned r' => Ok tt r' [EvHook h (exited r)]
  | Panicked x r' => Panic x r' [EvHook h (exited r)]
  end.
Proof.
  unfold callHook, call, bind, gets, emit, IsExited. simpl.
  destruct (callHookHandler s h r); reflexivity.
Qed.

Lemma gated_stage_eq (s : Server) (h : HookName) (r : Request) :
  gated_stage s h r = if exited r then Ok tt r [] else callHook s h r.
Proof.
  unfold gated_stage, when, bind, gets, IsExited. simpl.
  destruct (exited r); simpl; [reflexivity |].
  destruct (callHook s h r) as [[] r1 t1 | x r1 t1]; reflexivity.
Qed.

Lemma handleHTTPRequest_stages (s : Server) (r : Request) :
  handleHTTPRequest s r =
  (searchService s ;; callHook s HookBeforeServe ;; coreServe s ;; afterServe s) r.
Proof.
  unfold handleHTTPRequest, afterServe, gated_stage.
  apply bind_ext. intros _ r1. apply bind_ext. intros _ r2.
  apply bind_ext. intros _ r3. symmetry. apply bind_assoc.
Qed.

Lemma output_stages (s : Server) (r : Request) :
  output s r =
  (statusCheck ;; statusHandler s ;; sessionCookie s ;; Cookie_Flush ;;
   Response_Flush ;; gated_stage s HookAfterOutput) r.
Proof. reflexivity. Qed.

Lemma afterServe_exited (s : Server) (r : Request) :
  exited r = true -> afterServe s r = Ok tt r [].
Proof.
  intros H. unfold afterServe, bind. rewrite gated_stage_eq, H.
  rewrite gated_stage_eq, H. reflexivity.
Qed.

Lemma coreServe_exited (s : Server) (r : Request) :
  IsExited r = true -> coreServe s r = Ok tt r [].
Proof.
  intros H. unfold coreServe, when, bind, gets. simpl. rewrite H. reflexivity.
Qed.

(** C1, amended: in every activation of the dispatcher the stages
    AfterServe and BeforeOutput (in handleHTTPRequest) and AfterOutput (in
    the output phase of CServeHTTP) stand behind the test of the exited flag:
    on a request marked exited the stage is skipped and the request is left
    as it is, on any other request the hook handlers of the stage are called.
    BeforeServe stands behind no test: every entry of handleHTTPRequest, from
    CServeHTTP or from HandleContext, calls its hook handlers whatever the
    flag reads. Once the request is exited after core serving, the rest of
    handleHTTPRequest does nothing; and a dispatch entered on an exited
    request still applies the BeforeServe hook handlers to it, and nothing
    else when they leave it exited. *)
Theorem hook_stages_gated :
  forall (s : Server) (r : Request) (h : HookName),
    handleHTTPRequest s r =
      (searchService s ;; callHook s HookBeforeServe ;; coreServe s ;;
       gated_stage s HookAfterServe ;; gated_stage s HookBeforeOutput) r /\
    output s r =
      (statusCheck ;; statusHandler s ;; sessionCookie s ;; Cookie_Flush ;;
       Response_Flush ;; gated_stage s HookAfterOutput) r /\
    callHook s h r =
      match callHookHandler s h r with
      | Returned r' => Ok tt r' [EvHook h (exited r)]
      | Panicked x r' => Panic x r' [EvHook h (exited r)]
      end /\
    gated_stage s h r =
      (if exited r then Ok tt r []
       else match callHookHandler s h r with
            | Returned r' => Ok tt r' [EvHook h false]
            | Panicked x r' => Panic x r' [EvHook h false]
            end) /\
    (exited r = true ->
     (gated_stage s HookAfterServe ;; gated_stage s HookBeforeOutput) r = Ok tt r []) /\
    (forall r2 : Request,
        exited r = true ->
        callHookHandler s HookBeforeServe (res_request (searchService s r)) =
          Returned r2 ->
        exited r2 = true ->
        handleHTTPRequest s r = Ok tt r2 [EvHook HookBeforeServe true]).
Proof.
  intros s r h.
  split; [exact (handleHTTPRequest_stages s r) |].
  split; [reflexivity |].
  split; [apply callHook_eq |].
  split; [| split].
  - rewrite gated_stage_eq, callHook_eq.
    destruct (exited r); reflexivity.
  - apply afterServe_exited.
  - intros r2 Hin Hhook Hout.
    destruct (searchService_returns s r) as (r1 & Hs & Hex1).
    rewrite Hs in Hhook. simpl in Hhook.
    rewrite handleHTTPRequest_stages.
    unfold bind at 1. rewrite Hs.
    unfold bind at 1. rewrite (callHook_returns _ _ _ _ Hhook), Hex1, Hin.
    unfold bind. rewrite (coreServe_exited s r2 Hout), (afterServe_exited s r2 Hout).
    reflexivity.
Qed.

Lemma hook_stages_gated_witness :
  exited request_turned_away = true /\
  callHookHandler gatekeeper_server HookBeforeServe (fresh_request "/api/x") =
    Returned request_turned_away /\
  gated_stage gatekeeper_server HookAfterServe request_turned_away =
    Ok tt request_turned_away [] /\
  gated_stage gatekeeper_server HookBeforeServe (fresh_request "/api/x") =
    Ok tt request_turned_away [EvHook HookBeforeServe false] /\
  callHook gatekeeper_server HookBeforeServe request_turned_away =
    Ok tt (set_exited true (set_Response_Status 403 request_turned_away))
       [EvHook HookBeforeServe true] /\
  res_trace (HandleContext gatekeeper_server request_turned_away) =
    [EvHook HookBeforeServe true].
Proof.
  destruct (hook_stages_gated gatekeeper_server request_turned_away HookAfterServe)
    as (_ & _ & _ & Hskip & _).
  destruct (hook_stages_gated gatekeeper_server (fresh_request "/api/x") HookBeforeServe)
    as (_ & _ & _ & Hcall & _).
  destruct (hook_stages_gated gatekeeper_server request_turned_away HookBeforeServe)
    as (_ & _ & Hentry & _).
  split; [reflexivity |]. split; [reflexivity |].
  destruct (hook_stages_gated gatekeeper_server
              (set_Middleware (reset (Middleware request_turned_away))
                 request_turned_away) HookBeforeServe)
    as (_ & _ & _ & _ & _ & Hre).
  split; [exact Hskip |]. split; [exact Hcall |]. split; [exact Hentry |].
  unfold HandleContext, bind, gets, modify. cbv beta iota.
  rewrite (Hre _ eq_refl eq_refl eq_refl). reflexivity.
Defined.

(** *** Default status of a request nothing was written for *)

(** Whatever request the status handlers leave, its status and buffer are
    what the output phase flushes. *)
Lemma output_flushes_status (s : Server) (r r0 r1 : Request) (t1 : list Event) :
  statusCheck r = Ok tt r0 [] ->
  statusHandler s r0 = Ok tt r1 t1 ->
  In (EvResponseFlush (Response_Status r1) (Response_buffer r1))
     (res_trace (output s r)).
Proof.
  intros Hc Hh. unfold output.
  eapply bind_trace_r; [exact Hc |].
  eapply bind_trace_r; [exact Hh |].
  destruct (sessionCookie_returns s r1) as (r2 & t2 & Hs & Hst & Hb & _).
  eapply bind_trace_r; [exact Hs |].
  eapply bind_trace_r; [reflexivity |].
  apply bind_trace_l.
  unfold Response_Flush, bind, gets, emit, modify. simpl.
  rewrite Hst, Hb. simpl. auto.
Qed.

(** C2, amended: for a request with no status set, an empty buffer, the
    chain not marked served and no error recorded, the final status the
    dispatcher writes is 404 when no static-file match is recorded on the
    request, and 200 when one is. In the first case the status check writes
    404, the status handlers run are those registered for 404, no later step
    of the dispatcher writes a status, and 404 is flushed whenever the status
    handlers leave it in place (as when none is registered); in the second
    the status check writes 200, no status handler runs and 200 is
    flushed. *)
Theorem default_status_unserved :
  forall (s : Server) (r : Request),
    Response_Status r = 0 ->
    Response_buffer r = "" ->
    served (Middleware r) = false ->
    error r = None ->
    match StaticFile r with
    | None =>
        let r404 := set_Response_Status 404 r in
        statusCheck r = Ok tt r404 [] /\
        statusHandler s r404 =
          statusHandlerLoop s (getStatusHandler s 404 r404) r404 /\
        (forall r1 t1,
            statusHandler s r404 = Ok tt r1 t1 ->
            In (EvResponseFlush (Response_Status r1) (Response_buffer r1))
               (res_trace (output s r))) /\
        (getStatusHandler s 404 r404 = [] ->
         In (EvResponseFlush 404 "") (res_trace (output s r)))
    | Some _ =>
        let r200 := set_Response_Status 200 r in
        statusCheck r = Ok tt r200 [] /\
        statusHandler s r200 = Ok tt r200 [] /\
        In (EvResponseFlush 200 "") (res_trace (output s r))
    end.
Proof.
  intros s r Hst Hb Hs He.
  destruct (StaticFile r) as [f |] eqn:Hf; cbv zeta.
  - assert (Hc : statusCheck r = Ok tt (set_Response_Status 200 r) []).
    { unfold statusCheck, bind, gets, when. simpl. rewrite Hst. simpl.
      rewrite Hf. reflexivity. }
    split; [exact Hc |]. split; [reflexivity |].
    pose proof (output_flushes_status s r _ _ _ Hc eq_refl) as H.
    simpl in H. rewrite Hb in H. exact H.
  - assert (Hc : statusCheck r = Ok tt (set_Response_Status 404 r) []).
    { unfold statusCheck, bind, gets, when, GetError. simpl.
      rewrite Hst. simpl. rewrite Hb, Hs, He, Hf. reflexivity. }
    split; [exact Hc |]. split; [rewrite statusHandler_eq; reflexivity |].
    split.
    + intros r1 t1 Hh. exact (output_flushes_status s r _ _ _ Hc Hh).
    + intros Hnone.
      assert (Hh : statusHandler s (set_Response_Status 404 r) =
                   Ok tt (set_Response_Status 404 r) []).
      { rewrite statusHandler_eq. simpl. rewrite Hnone. reflexivity. }
      pose proof (output_flushes_status s r _ _ _ Hc Hh) as H.
      simpl in H. rewrite Hb in H. exact H.
Qed.

Lemma default_status_unserved_witness :
  In (EvResponseFlush 404 "")
     (res_trace (output plain_server (fresh_request "/nothing"))) /\
  In (EvResponseFlush 200 "")
     (res_trace (output plain_server request_static_streamed)).
Proof.
  split.
  - apply (default_status_unserved plain_server (fresh_request "/nothing")
             eq_refl eq_refl eq_refl eq_refl).
    reflexivity.
  - apply (default_status_unserved plain_server request_static_streamed
             eq_refl eq_refl eq_refl eq_refl).
Defined.

(** *** What serves a request *)

(** Core serving of a file request is the file server run on the request. *)
Lemma coreServe_file (s : Server) (r : Request) :
  IsExited r = false ->
  isFileRequest r = true ->
  coreServe s r =
  match serveFile s (StaticFile r) r with
  | Returned r' => Ok tt r' [EvServeFile (StaticFile r)]
  | Panicked x r' => Panic x r' [EvServeFile (StaticFile r)]
  end.
Proof.
  intros Hex Hfr.
  unfold coreServe, callServeFile, when, bind, gets, emit, call.
  simpl. rewrite Hex. simpl. rewrite Hfr. simpl.
  destruct (serveFile s (StaticFile r) r); reflexivity.
Qed.

(** Core serving of a request that is not a file request and has handlers is
    the middleware chain run on the request. *)
Lemma coreServe_dynamic (s : Server) (r : Request) :
  IsExited r = false ->
  isFileRequest r = false ->
  handlers r <> [] ->
  coreServe s r =
  match Middleware_Next s r with
  | Returned r' => Ok tt r' [EvMiddlewareNext]
  | Panicked x r' => Panic x r' [EvMiddlewareNext]
  end.
Proof.
  intros Hex Hfr Hh.
  unfold coreServe, callServeFile, when, bind, gets, emit, call.
  simpl. rewrite Hex. simpl. rewrite Hfr. simpl.
  destruct (handlers r) as [| i hs]; [congruence |].
  replace (Z.of_nat (List.length (i :: hs)) >? 0) with true
    by (symmetry; apply Z.gtb_lt; simpl List.length; lia).
  simpl. destruct (Middleware_Next s r); reflexivity.
Qed.

(** A dispatch whose service search leaves [r1], whose BeforeServe hook
    returns [r2] not exited, and whose core serving on [r2] is the call
    [label] of [h]. *)
Lemma dispatch_served_by (s : Server) (r r1 r2 : Request) (label : Event)
      (h : HandlerFunc) :
  searchService s r = Ok tt r1 [] ->
  exited r1 = exited r ->
  callHookHandler s HookBeforeServe r1 = Returned r2 ->
  coreServe s r2 =
    match h r2 with
    | Returned r' => Ok tt r' [label]
    | Panicked x r' => Panic x r' [label]
    end ->
  handleHTTPRequest s r = served_by s (exited r) label h r2.
Proof.
  intros Hs Hex Hhook Hcore.
  rewrite handleHTTPRequest_stages. unfold served_by.
  unfold bind at 1. rewrite Hs.
  unfold bind at 1. rewrite (callHook_returns _ _ _ _ Hhook), Hex.
  unfold bind at 1. rewrite Hcore.
  destruct (h r2) as [r3 | x r3]; [| reflexivity].
  destruct (afterServe s r3) as [[] r4 t | x r4 t]; reflexivity.
Qed.

(** C4: with file serving enabled and a static-file match, the service
    search records the match and marks the request a file request unless the
    match is a directory and the route has a serve handler. What then serves
    the request, once the BeforeServe hook has returned without ending the
    request or touching match, mark and handlers, is the file server run on
    the matched file in the one case, and the middleware chain in the other
    (a route with a serve handler has handlers): the dispatch is exactly that
    call on the request the hook left, followed by the stages after
    serving. *)
Theorem static_file_priority :
  forall (s : Server) (r : Request) (f : staticFile),
    let r1 := res_request (searchService s r) in
    FileServerEnabled (config s) = true ->
    searchStaticFile s (URL_Path r) = Some f ->
    searchService s r = Ok tt r1 [] /\
    StaticFile r1 = Some f /\
    isFileRequest r1 = negb (IsDir f && hasServeHandler r1) /\
    (forall r2 : Request,
        (hasServeHandler r1 = true -> handlers r1 <> []) ->
        callHookHandler s HookBeforeServe r1 = Returned r2 ->
        IsExited r2 = false ->
        StaticFile r2 = StaticFile r1 ->
        isFileRequest r2 = isFileRequest r1 ->
        handlers r2 = handlers r1 ->
        handleHTTPRequest s r =
        if IsDir f && hasServeHandler r1
        then served_by s (exited r) EvMiddlewareNext (Middleware_Next s) r2
        else served_by s (exited r) (EvServeFile (Some f)) (serveFile s (Some f)) r2).
Proof.
  intros s r f r1 Hen Hf.
  destruct (searchService_static s r f Hen Hf) as (r1' & Hs & Hsf1 & Hfr1 & Hex1).
  assert (E : r1 = r1') by (unfold r1; now rewrite Hs).
  clearbody r1. subst r1'.
  split; [exact Hs |]. split; [exact Hsf1 |]. split; [exact Hfr1 |].
  intros r2 Hroute Hhook Hex Hsf Hfr Hh.
  destruct (IsDir f && hasServeHandler r1) eqn:Hd; simpl in Hfr1.
  - apply andb_prop in Hd. destruct Hd as [_ Hserve].
    apply (dispatch_served_by s r r1 r2 _ _ Hs Hex1 Hhook).
    apply coreServe_dynamic; [exact Hex | congruence |].
    rewrite Hh. exact (Hroute Hserve).
  - apply (dispatch_served_by s r r1 r2 _ _ Hs Hex1 Hhook).
    rewrite (coreServe_file s r2 Hex) by congruence.
    rewrite Hsf, Hsf1. reflexivity.
Qed.

Lemma static_file_priority_witness :
  isFileRequest (res_request (searchService file_server (fresh_request "/static/"))) =
    false /\
  Response_buffer (res_request (handleHTTPRequest file_server (fresh_request "/static/"))) =
    "hello" /\
  isFileRequest (res_request (searchService file_server
                                (fresh_request "/static/exists.html"))) = true /\
  Response_buffer (res_request (handleHTTPRequest file_server
                                  (fresh_request "/static/exists.html"))) =
    "/www/static/exists.html".
Proof.
  destruct (static_file_priority file_server (fresh_request "/static/")
              (mkStaticFile "/www/static" true) eq_refl eq_refl)
    as (_ & _ & Hd & Hdyn).
  destruct (static_file_priority file_server (fresh_request "/static/exists.html")
              (mkStaticFile "/www/static/exists.html" false) eq_refl eq_refl)
    as (_ & _ & Hf & Hfile).
  split; [exact Hd |]. split.
  - rewrite (Hdyn (res_request (searchService file_server (fresh_request "/static/")))
               ltac:(intros _; discriminate) eq_refl eq_refl eq_refl eq_refl eq_refl).
    reflexivity.
  - split; [exact Hf |].
    rewrite (Hfile (res_request (searchService file_server
                                   (fresh_request "/static/exists.html")))
               ltac:(intros H; vm_compute in H; discriminate H)
               eq_refl eq_refl eq_refl eq_refl eq_refl).
    reflexivity.
Defined.

(** X12: with file serving enabled the service search records what the
    static search answers and settles the file-request mark from it on a
    match (marked, unless a directory with a serve handler), but on a miss it
    leaves the mark as it was. So a request still marked from an earlier
    dispatch and dispatched again on a path without static match is served by
    the file server run with no file, on the request the BeforeServe hook left
    (when that hook returns without ending the request or touching match and
    mark). *)
Theorem stale_file_mark_serves_no_file :
  forall (s : Server) (r : Request),
    let r1 := res_request (searchService s r) in
    FileServerEnabled (config s) = true ->
    searchService s r = Ok tt r1 [] /\
    StaticFile r1 = searchStaticFile s (URL_Path r) /\
    isFileRequest r1 =
      match searchStaticFile s (URL_Path r) with
      | Some f => negb (IsDir f && hasServeHandler r1)
      | None => isFileRequest r
      end /\
    (forall r2 : Request,
        searchStaticFile s (URL_Path r) = None ->
        isFileRequest r = true ->
        callHookHandler s HookBeforeServe r1 = Returned r2 ->
        IsExited r2 = false ->
        StaticFile r2 = StaticFile r1 ->
        isFileRequest r2 = isFileRequest r1 ->
        handleHTTPRequest s r =
        served_by s (exited r) (EvServeFile None) (serveFile s None) r2).
Proof.
  intros s r r1 Hen.
  destruct (searchStaticFile s (URL_Path r)) as [f |] eqn:Hsearch.
  - destruct (searchService_static s r f Hen Hsearch)
      as (r1' & Hs & Hsf1 & Hfr1 & _).
    assert (E : r1 = r1') by (unfold r1; now rewrite Hs).
    clearbody r1. subst r1'.
    split; [exact Hs |]. split; [exact Hsf1 |]. split; [exact Hfr1 |].
    intros r2 Hnone. discriminate Hnone.
  - assert (Hs : searchService s r =
                 Ok tt (set_route (getHandlersWithCache s (set_StaticFile None r))
                                  (set_StaticFile None r)) []).
    { unfold searchService, when, bind, gets, modify, static_is_dir.
      rewrite Hen. simpl. rewrite Hsearch. reflexivity. }
    assert (E : r1 = set_route (getHandlersWithCache s (set_StaticFile None r))
                               (set_StaticFile None r))
      by (unfold r1; now rewrite Hs).
    clearbody r1. subst r1.
    split; [exact Hs |]. split; [reflexivity |]. split; [reflexivity |].
    intros r2 _ Hmark Hhook Hex Hsf Hfr. simpl in Hsf, Hfr.
    apply (dispatch_served_by s r _ r2 _ _ Hs eq_refl Hhook).
    rewrite (coreServe_file s r2 Hex) by congruence.
    rewrite Hsf. reflexivity.
Qed.

Lemma stale_file_mark_serves_no_file_witness :
  isFileRequest request_stale_file = true /\
  StaticFile (res_request (searchService file_server request_stale_file)) = None /\
  Response_buffer (res_request (handleHTTPRequest file_server request_stale_file)) =
    "no file".
Proof.
  destruct (stale_file_mark_serves_no_file file_server request_stale_file eq_refl)
    as (_ & Hsf & _ & Hserve).
  split; [reflexivity |]. split; [exact Hsf |].
  rewrite (Hserve (res_request (searchService file_server request_stale_file))
             eq_refl eq_refl eq_refl eq_refl eq_refl eq_refl).
  reflexivity.
Defined.
